(** * Placeholder icon generator (extension/icons/create_icons.py)

    A shallow embedding of the script and the properties of its
    specification.  The script draws, for each of three fixed sizes, a
    vertical colour gradient with the letters "PA" centred on it and saves
    the picture as a PNG file; a branch of [main] writes text stubs when
    Pillow cannot be imported.

    Definitions:
    - [Py]        the Python values and operators the script relies on,
                  floats included;
    - [PIL]       the Pillow raster operations the script calls;
    - [Script]    the script itself, statement by statement, in a state
                  and exception monad over the files of the working
                  directory and a history of calls;
    - [Binary64]  the gradient colour on the doubles of the processor, to
                  check the floats of [Py] against;
    - [Obs]       the vocabulary of the properties: readings of the
                  history, closed forms of the stages of the script, sample
                  installations.

    Lemmas and theorems:
    - [Float]     rounding to the nearest double is monotone;
    - [Gradient]  the bounds of the colour channels;
    - [Raster]    the gradient loop and the text drawing on the pixels;
    - [Run], [Specs]  the script in closed form;
    - [Claims]    the properties of the specification, C1 to C10. *)

From Stdlib Require Import ZArith QArith Qround Qpower Floats Uint63 Lia Lqa.
From stdpp Require Import gmap strings pretty list.

Local Open Scope Z_scope.

(* ===================================================================== *)
(** ** Python values and operators *)
(* ===================================================================== *)

Module Py.

(** The exceptions that occur in the script.  [ModuleNotFoundError] is a
    subclass of [ImportError]; [OtherError] stands for any other class. *)
Inductive exn : Type :=
| ImportError (name : string)
| ModuleNotFoundError (name : string)
| ValueError (msg : string)
| OSError (errno : Z) (path : string)
| PermissionError (path : string)
| OtherError (cls : string).

(** [except ImportError:] catches the class and its subclasses. *)
Definition isinstance_ImportError (e : exn) : bool :=
  match e with
  | ImportError _ | ModuleNotFoundError _ => true
  | _ => false
  end.

(** *** Floats

    A Python float is an IEEE binary64 number.  The finite ones are
    rationals and are kept as such; an operation returns the double
    nearest to its exact result, ties going to the even mantissa. *)

(** The nearest integer, ties to the even one. *)
Definition rne (x : Q) : Z :=
  let f := Qfloor x in
  match Qcompare (x - inject_Z f) (1 # 2) with
  | Lt => f
  | Gt => f + 1
  | Eq => if Z.even f then f else f + 1
  end.

(** The exponent of the binade of [x > 0]:
    [2 ^ ilog2 x <= x < 2 ^ (ilog2 x + 1)]. *)
Definition ilog2 (x : Q) : Z :=
  let k := Z.log2 (Qnum x) - Z.log2 (Z.pos (Qden x)) in
  if Qle_bool (2 ^ k)%Q x then k else k - 1.

(** The spacing of the doubles around [x > 0]: 52 bits below the
    leading one, and 2^-1074 throughout the subnormal range. *)
Definition ulp (x : Q) : Q := (2 ^ (Z.max (ilog2 x) (-1022) - 52))%Q.

(** The double nearest to [x >= 0]. *)
Definition nearest (x : Q) : Q := (inject_Z (rne (x / ulp x)) * ulp x)%Q.

(** The double nearest to [x], for [x] below 2^1024 in magnitude. *)
Definition round (x : Q) : Q :=
  if Qle_bool 0 x then nearest x else (- nearest (- x))%Q.

(** [float(n)], the conversion an integer operand undergoes when the
    other operand is a float. *)
Definition float (n : Z) : Q := round (inject_Z n).

(** [a / b] on integers, [b] not zero: true division, correctly
    rounded.  The script divides by [size] only inside the loop over
    [range(size)], which has no turn unless [size > 0]. *)
Definition truediv (a b : Z) : Q := round (inject_Z a / inject_Z b).

(** [x + y] on floats. *)
Definition add (x y : Q) : Q := round (x + y).

(** [int(x)] on a float truncates toward zero. *)
Definition int (x : Q) : Z := Z.quot (Qnum x) (Z.pos (Qden x)).

(** [a // b] on integers is floor division. *)
Definition floordiv (a b : Z) : Z := a / b.

(** [range(n)]: 0, 1, ..., n-1, empty when [n <= 0]. *)
Definition range (n : Z) : list Z := seqZ 0 n.

(** [str(n)] and the [{n}] field of an f-string, in decimal. *)
Definition str (n : Z) : string := pretty n.

End Py.

(* ===================================================================== *)
(** ** The Pillow operations used by the script *)
(* ===================================================================== *)

Module PIL.

Inductive Mode : Type := L | RGB | RGBA.

(** A colour of an RGBA image: red, green, blue, alpha. *)
Definition Pixel : Type := (Z * Z * Z * Z)%type.

Definition red (p : Pixel) : Z := let '(r, _, _, _) := p in r.
Definition green (p : Pixel) : Z := let '(_, g, _, _) := p in g.
Definition blue (p : Pixel) : Z := let '(_, _, b, _) := p in b.
Definition alpha (p : Pixel) : Z := let '(_, _, _, a) := p in a.

(** An image: its mode, its [size] attribute (width, height) and its
    rows of pixels, top row first. *)
Record Image : Type := mkImage {
  im_mode : Mode;
  im_size : Z * Z;
  im_rows : list (list Pixel)
}.

(** A font handle: a FreeType face loaded from a file at a point size,
    or the built-in face of [ImageFont.load_default()]. *)
Inductive Font : Type :=
| FreeTypeFont (path : string) (size : Z)
| DefaultFont.

(** [Image.new(mode, (w, h), color)]: a [w] by [h] image filled with
    [color]; negative dimensions are rejected. *)
Definition new (mode : Mode) (size : Z * Z) (color : Pixel)
  : Py.exn + Image :=
  let '(w, h) := size in
  if (w <? 0) || (h <? 0)
  then inl (Py.ValueError "Width and height must be >= 0")
  else inr (mkImage mode size
              (replicate (Z.to_nat h) (replicate (Z.to_nat w) color))).

(** One row after a horizontal segment from [x0] to [x1], both ends
    included, has been drawn on it. *)
Definition hline (x0 x1 : Z) (fill : Pixel) (row : list Pixel)
  : list Pixel :=
  imap (fun x p =>
          if (Z.min x0 x1 <=? Z.of_nat x) && (Z.of_nat x <=? Z.max x0 x1)
          then fill else p) row.

(** [draw.line([(x0, y0), (x1, y1)], fill)] with the default width.
    The script only draws horizontal segments ([y0 = y1]); the pixels
    of the segment that lie inside the image take the fill colour, the
    part outside is clipped.  Other slopes are not used by the script
    and are left undrawn here. *)
Definition line (img : Image) (p0 p1 : Z * Z) (fill : Pixel) : Image :=
  let '(x0, y0) := p0 in
  let '(x1, y1) := p1 in
  if y0 =? y1
  then mkImage (im_mode img) (im_size img)
         (imap (fun y row =>
                  if Z.of_nat y =? y0 then hline x0 x1 fill row else row)
               (im_rows img))
  else img.

(** Pillow's fixed-point division by 255 and its blend of a pixel
    channel [in1] with an ink channel [in2] under a coverage [mask]. *)
Definition DIV255 (a : Z) : Z :=
  let tmp := a + 128 in Z.shiftr (Z.shiftr tmp 8 + tmp) 8.

Definition BLEND (mask in1 in2 : Z) : Z :=
  DIV255 (in1 * (255 - mask) + in2 * mask).

Definition blend_pixel (mask : Z) (p ink : Pixel) : Pixel :=
  let '(r, g, b, a) := p in
  let '(ir, ig, ib, ia) := ink in
  (BLEND mask r ir, BLEND mask g ig, BLEND mask b ib, BLEND mask a ia).

(** [draw.text(xy, text, fill, font)]: the glyphs are rasterised by the
    font engine into a coverage mask (0 = untouched, 255 = full ink) and
    the ink is blended into every pixel of the image under that mask.
    [coverage dx dy] is the mask value at offset [(dx, dy)] from the
    drawing origin; what falls outside the image is clipped.  On a
    pixel whose alpha is 255, as every pixel is after the gradient, the
    alpha-aware adjustment of the mask made by recent Pillow releases is
    the identity. *)
Definition text (img : Image) (xy : Z * Z) (coverage : Z -> Z -> Z)
    (fill : Pixel) : Image :=
  let '(ox, oy) := xy in
  mkImage (im_mode img) (im_size img)
    (imap (fun y row =>
             imap (fun x p =>
                     blend_pixel
                       (coverage (Z.of_nat x - ox) (Z.of_nat y - oy))
                       p fill) row)
          (im_rows img)).

End PIL.

(* ===================================================================== *)
(** ** The script *)
(* ===================================================================== *)

Module Script.
Import PIL.

(** What the script does to the outside world, in the order it does it:
    every call of a Pillow entry point, every file written and every
    line printed. *)
Inductive event : Type :=
| EvNew (mode : Mode) (size : Z * Z) (color : Pixel)
| EvLine (p0 p1 : Z * Z) (fill : Pixel)
| EvTruetype (path : string) (size : Z)
| EvLoadDefault
| EvTextbbox (xy : Z * Z) (txt : string) (font : Font)
| EvText (xy : Z * Z) (txt : string) (fill : Pixel) (font : Font)
| EvSave (filename : string) (format : string) (img : Image)
| EvWrite (filename : string) (data : string)
| EvPrint (line : string).

(** The world the script runs in: the files of the working directory
    (name to contents, as bytes) and the history of events. *)
Record World : Type := mkWorld {
  fs : gmap string string;
  log : list event
}.

(** What the script cannot decide by itself: the installation it runs
    on.  One value of [Env] is one stable installation.  Of the entry
    points of Pillow, loading a font file and writing a file can fail;
    measuring and drawing text and [ImageFont.load_default()] always
    return. *)
Record Env : Type := mkEnv {
  (** does [from PIL import Image, ImageDraw, ImageFont] succeed *)
  pil_available : bool;
  (** the exception [ImageFont.truetype(path, size)] raises, if any *)
  truetype_error : string -> Z -> option Py.exn;
  (** [draw.textbbox((0, 0), text, font)]: left, top, right, bottom *)
  textbbox : Font -> string -> Z * Z * Z * Z;
  (** the coverage mask of [text] rendered in [font] *)
  glyphs : Font -> string -> Z -> Z -> Z;
  (** the PNG encoder *)
  png_encode : Image -> string;
  (** the exception raised when the file at a path is opened for
      writing or written, if any *)
  io_error : string -> option Py.exn
}.

Inductive result (A : Type) : Type :=
| Ok (a : A)
| Raise (e : Py.exn).
Arguments Ok {A} a.
Arguments Raise {A} e.

(** Computations of the script: they read and change the world and end
    normally or with an exception; effects made before an exception
    stay. *)
Definition M (A : Type) : Type := World -> result A * World.

Definition ret {A} (a : A) : M A := fun w => (Ok a, w).

Definition bind {A B} (m : M A) (k : A -> M B) : M B :=
  fun w =>
    match m w with
    | (Ok a, w') => k a w'
    | (Raise e, w') => (Raise e, w')
    end.

Definition raise {A} (e : Py.exn) : M A := fun w => (Raise e, w).

(** The monad notations [x ← m; k] and [m;; k] of stdpp. *)
#[global] Instance M_ret : MRet M := @ret.
#[global] Instance M_bind : MBind M := fun A B k m => bind m k.

(** [try: body  except: handler] with a bare [except], which catches
    every exception. *)
Definition try_except {A} (body : M A) (handler : M A) : M A :=
  fun w =>
    match body w with
    | (Ok a, w') => (Ok a, w')
    | (Raise _, w') => handler w'
    end.

Definition emit (e : event) : M unit :=
  fun w => (Ok tt, mkWorld (fs w) (log w ++ [e])).

(** [for a in l: body], threading the local variable the body updates. *)
Fixpoint for_in {A S} (l : list A) (body : A -> S -> M S) (s : S) : M S :=
  match l with
  | [] => ret s
  | a :: l' => s' ← body a s; for_in l' body s'
  end.

Section WithEnv.
Variable env : Env.

(** *** The entry points of the outside world *)

Definition import_PIL : M unit :=
  if pil_available env then ret tt
  else raise (Py.ModuleNotFoundError "PIL").

Definition Image_new (mode : Mode) (size : Z * Z) (color : Pixel)
  : M Image :=
  emit (EvNew mode size color);;
  match PIL.new mode size color with
  | inl e => raise e
  | inr img => ret img
  end.

Definition draw_line (img : Image) (p0 p1 : Z * Z) (fill : Pixel)
  : M Image :=
  emit (EvLine p0 p1 fill);;
  ret (PIL.line img p0 p1 fill).

Definition ImageFont_truetype (path : string) (size : Z) : M Font :=
  emit (EvTruetype path size);;
  match truetype_error env path size with
  | Some e => raise e
  | None => ret (FreeTypeFont path size)
  end.

Definition ImageFont_load_default : M Font :=
  emit EvLoadDefault;;
  ret DefaultFont.

Definition draw_textbbox (xy : Z * Z) (txt : string) (font : Font)
  : M (Z * Z * Z * Z) :=
  emit (EvTextbbox xy txt font);;
  ret (textbbox env font txt).

Definition draw_text (img : Image) (xy : Z * Z) (txt : string)
    (fill : Pixel) (font : Font) : M Image :=
  emit (EvText xy txt fill font);;
  ret (PIL.text img xy (glyphs env font txt) fill).

(** Writing [data] to the file at [filename]: the data replace
    whatever the file held.  What a failed write leaves on disk is not
    modelled: the file system is unchanged then. *)
Definition store (filename data : string) : M unit :=
  fun w =>
    match io_error env filename with
    | Some e => (Raise e, w)
    | None => (Ok tt, mkWorld (<[filename := data]> (fs w)) (log w))
    end.

(** [img.save(filename, format)]. *)
Definition img_save (img : Image) (filename format : string) : M unit :=
  emit (EvSave filename format img);;
  store filename (png_encode env img).

(** [with open(filename, 'w') as f: f.write(data)]. *)
Definition open_write (filename data : string) : M unit :=
  emit (EvWrite filename data);;
  store filename data.

Definition print (line : string) : M unit := emit (EvPrint line).

(** *** create_icon *)

(** The gradient colour of row [i], lines 17-22. *)
Definition color (i size : Z) : Pixel :=
  (Py.int (Py.add (Py.float 102) (Py.truediv ((118 - 102) * i) size)),
   Py.int (Py.add (Py.float 126) (Py.truediv ((75 - 126) * i) size)),
   Py.int (Py.add (Py.float 234) (Py.truediv ((162 - 234) * i) size)),
   255).

Definition create_icon (size : Z) (filename : string) : M unit :=
  (* Create a new image with a gradient background *)
  img ← Image_new RGBA (size, size) (0, 0, 0, 0);
  (* Create gradient background *)
  img ← for_in (Py.range size)
          (fun i img => draw_line img (0, i) (size, i) (color i size))
          img;
  (* Add a simple icon *)
  font ← try_except
           (let font_size := Py.floordiv size 2 in
            ImageFont_truetype
              "/usr/share/fonts/truetype/dejavu/DejaVuSans-Bold.ttf"
              font_size)
           ImageFont_load_default;
  (* Draw the letters *)
  let txt := "PA"%string in
  bbox ← draw_textbbox (0, 0) txt font;
  let '(bbox0, bbox1, bbox2, bbox3) := bbox in
  let text_width := bbox2 - bbox0 in
  let text_height := bbox3 - bbox1 in
  let x := Py.floordiv (size - text_width) 2 in
  let y := Py.floordiv (size - text_height) 2 in
  img ← draw_text img (x, y) txt (255, 255, 255, 255) font;
  (* Save the image *)
  img_save img filename "PNG";;
  print ("Created " +:+ filename +:+ " (" +:+ Py.str size +:+ "x"
         +:+ Py.str size +:+ ")").

(** *** main *)

(** The three icons, as the loop of the fallback branch lists them. *)
Definition icon_specs : list (Z * string) :=
  [(16, "icon16.png"); (48, "icon48.png"); (128, "icon128.png")]%string.

Definition main : M unit :=
  fun w =>
    (* Check if PIL is available *)
    match import_PIL w with
    | (Raise e, w1) =>
        if Py.isinstance_ImportError e then
          (print "PIL/Pillow not available. Creating simple text files as placeholders.";;
           (* Create placeholder files *)
           for_in icon_specs
             (fun '(size, filename) _ =>
                open_write filename
                  ("Placeholder icon " +:+ Py.str size +:+ "x"
                   +:+ Py.str size))
             tt) w1
        else (Raise e, w1)
    | (Ok _, w1) =>
        (* Create icons *)
        (create_icon 16 "icon16.png";;
         create_icon 48 "icon48.png";;
         create_icon 128 "icon128.png") w1
    end.

(** *** The module run as a program

    Line 7 imports Pillow when the module is loaded, line 8 imports
    [os], lines 10-64 define the two functions and lines 66-67 call
    [main]. *)
Definition script : M unit :=
  import_PIL;;
  main.

End WithEnv.

End Script.

(* ===================================================================== *)
(** ** The gradient on hardware doubles *)
(* ===================================================================== *)

(** The same colour computed with the doubles of the processor, to compare
    the rounding of [Py.round] with the hardware's: the product is an exact
    integer, the quotient and the sum are double-precision operations, and
    [int] drops the fraction. *)
Module Binary64.
Import PIL.

(** An integer below 2^62 in magnitude as a double, by the conversion
    instruction of the processor (exact below 2^53). *)
Definition float_of_int (z : Z) : float :=
  if z <? 0
  then PrimFloat.opp (PrimFloat.of_uint63 (Uint63.of_Z (- z)))
  else PrimFloat.of_uint63 (Uint63.of_Z z).

Definition truediv (a b : Z) : float :=
  PrimFloat.div (float_of_int a) (float_of_int b).

(** [int(x)] on a finite double: truncation toward zero. *)
Definition int (x : float) : Z :=
  match Prim2SF x with
  | SpecFloat.S754_finite s m e =>
      let v := if 0 <=? e then Z.pos m * 2 ^ e else Z.pos m / 2 ^ (- e) in
      if s then - v else v
  | _ => 0
  end.

Definition color (i size : Z) : Pixel :=
  (int (PrimFloat.add (float_of_int 102) (truediv ((118 - 102) * i) size)),
   int (PrimFloat.add (float_of_int 126) (truediv ((75 - 126) * i) size)),
   int (PrimFloat.add (float_of_int 234) (truediv ((162 - 234) * i) size)),
   255).

(** The rational a finite double stands for. *)
Definition to_Q (x : float) : Q :=
  match Prim2SF x with
  | SpecFloat.S754_finite s m e =>
      let v := (inject_Z (Z.pos m) * 2 ^ e)%Q in
      if s then (- v)%Q else v
  | _ => 0%Q
  end.

(** Quotients to compare [Py.truediv] with the division of the
    processor on: [a / b] for [a] from -30 to 30 and [b] from 1 to 30. *)
Definition division_samples : list (Z * Z) :=
  a ← seqZ (-30) 61; b ← seqZ 1 30; [(a, b)].

(** Integers halfway between two doubles, and their neighbours, to
    compare [Py.float] with the conversion of the processor on. *)
Definition conversion_samples : list Z :=
  [2 ^ 53 - 1; 2 ^ 53; 2 ^ 53 + 1; 2 ^ 53 + 2; 2 ^ 53 + 3; 2 ^ 54 + 2;
   2 ^ 54 + 6; 2 ^ 60 + 127; 2 ^ 60 + 128; 2 ^ 60 + 129; 2 ^ 60 + 384;
   2 ^ 62 - 1].

Definition Pixel_eqb (p q : Pixel) : bool :=
  let '(r, g, b, a) := p in
  let '(r', g', b', a') := q in
  (r =? r') && (g =? g') && (b =? b') && (a =? a').

(** Do the two evaluations give the same colour on every row of an
    image of edge [size]? *)
Definition agree (size : Z) : bool :=
  forallb (fun i => Pixel_eqb (color i size) (Script.color i size))
    (Py.range size).

(** The edge lengths on which the comparison is run: every one up to
    32, and the two larger icons of the script. *)
Definition checked_sizes : list Z := seqZ 1 32 ++ [48; 128].

End Binary64.

(* ===================================================================== *)
(** ** Vocabulary of the properties *)
(* ===================================================================== *)

Module Obs.
Import PIL Script.

(** Two colours differ by at most [tol] on every channel. *)
Definition near (tol : Z) (p q : Pixel) : Prop :=
  Z.abs (red p - red q) <= tol /\ Z.abs (green p - green q) <= tol /\
  Z.abs (blue p - blue q) <= tol /\ Z.abs (alpha p - alpha q) <= tol.

(** One channel of [color]: from [a] at the top towards [a + b]. *)
Definition channel (a b i size : Z) : Z :=
  Py.int (Py.add (Py.float a) (Py.truediv (b * i) size)).

(** A rational that is a double: rounding leaves it as it is. *)
Definition representable (c : Q) : Prop := (Py.round c == c)%Q.

Definition start_color : Pixel := (102, 126, 234, 255).
Definition end_color : Pixel := (118, 75, 162, 255).
Definition white : Pixel := (255, 255, 255, 255).

Definition font_path : string :=
  "/usr/share/fonts/truetype/dejavu/DejaVuSans-Bold.ttf".

Definition icon_names : list string :=
  ["icon16.png"; "icon48.png"; "icon128.png"]%string.

(** Every pixel of the image has alpha 255. *)
Definition opaque (img : Image) : Prop :=
  Forall (Forall (fun p => alpha p = 255)) (im_rows img).

(** The image is a [size] by [size] RGBA raster, in its attributes and
    in its pixel data. *)
Definition square_RGBA (size : Z) (img : Image) : Prop :=
  im_mode img = RGBA /\ im_size img = (size, size) /\
  length (im_rows img) = Z.to_nat size /\
  Forall (fun row => length row = Z.to_nat size) (im_rows img).

(** *** Readings of the history *)

(** The files written, in order: by [img.save] or by [f.write]. *)
Definition outputs (evs : list event) : list string :=
  omap (fun e => match e with
                 | EvSave filename _ _ | EvWrite filename _ => Some filename
                 | _ => None
                 end) evs.

(** The images handed to [img.save], with their file names, in order. *)
Definition saves (evs : list event) : list (string * Image) :=
  omap (fun e => match e with
                 | EvSave filename _ img => Some (filename, img)
                 | _ => None
                 end) evs.

(** The text stubs written by [f.write], with their file names. *)
Definition stubs (evs : list event) : list (string * string) :=
  omap (fun e => match e with
                 | EvWrite filename data => Some (filename, data)
                 | _ => None
                 end) evs.

(** The lines printed, in order. *)
Definition printed (evs : list event) : list string :=
  omap (fun e => match e with
                 | EvPrint line => Some line
                 | _ => None
                 end) evs.

(** The origins handed to [draw.text]. *)
Definition texts (evs : list event) : list (Z * Z) :=
  omap (fun e => match e with
                 | EvText xy _ _ _ => Some xy
                 | _ => None
                 end) evs.

(** The calls of a drawing entry point of Pillow. *)
Definition drawing (evs : list event) : list event :=
  List.filter (fun e => match e with
                        | EvNew _ _ _ | EvLine _ _ _ | EvText _ _ _ _
                        | EvTextbbox _ _ _ | EvSave _ _ _ => true
                        | _ => false
                        end) evs.

(** The same world with more history. *)
Definition logged (w : World) (evs : list event) : World :=
  mkWorld (fs w) (log w ++ evs).

(** *** The stages of [create_icon] in closed form *)

(** The canvas [Image.new] returns. *)
Definition blank (size : Z) : Image :=
  mkImage RGBA (size, size)
    (replicate (Z.to_nat size) (replicate (Z.to_nat size) (0, 0, 0, 0))).

(** One turn of the gradient loop. *)
Definition paint (size : Z) (img : Image) (i : Z) : Image :=
  PIL.line img (0, i) (size, i) (color i size).

(** The canvas after the first [k] turns of the loop. *)
Definition painted (size : Z) (k : nat) : Image :=
  mkImage RGBA (size, size)
    (((fun y => replicate (Z.to_nat size) (color y size))
        <$> seqZ 0 (Z.of_nat k))
     ++ replicate (Z.to_nat size - k)
          (replicate (Z.to_nat size) (0, 0, 0, 0))).

(** The canvas after the whole loop: row [y] holds [color y size]. *)
Definition gradient (size : Z) : Image :=
  mkImage RGBA (size, size)
    ((fun y => replicate (Z.to_nat size) (color y size))
       <$> Py.range size).

Section WithEnv.
Variable env : Env.

(** The font the [try] statement leaves in [font]. *)
Definition chosen_font (size : Z) : Font :=
  match truetype_error env font_path (size / 2) with
  | Some _ => DefaultFont
  | None => FreeTypeFont font_path (size / 2)
  end.

Definition font_calls (size : Z) : list event :=
  EvTruetype font_path (size / 2)
  :: match truetype_error env font_path (size / 2) with
     | Some _ => [EvLoadDefault]
     | None => []
     end.

(** The point [(x, y)] handed to [draw.text]. *)
Definition origin (size : Z) : Z * Z :=
  let '(l, t, r, b) := textbbox env (chosen_font size) "PA" in
  ((size - (r - l)) / 2, (size - (b - t)) / 2).

(** The image handed to [img.save]. *)
Definition picture (size : Z) : Image :=
  PIL.text (gradient size) (origin size)
    (glyphs env (chosen_font size) "PA") white.

Definition confirmation (size : Z) (filename : string) : string :=
  "Created " +:+ filename +:+ " (" +:+ Py.str size +:+ "x"
  +:+ Py.str size +:+ ")".

(** The history one call of [create_icon] adds. *)
Definition calls (size : Z) (filename : string) : list event :=
  EvNew RGBA (size, size) (0, 0, 0, 0)
  :: ((fun i => EvLine (0, i) (size, i) (color i size))
        <$> Py.range size)
  ++ font_calls size
  ++ [EvTextbbox (0, 0) "PA" (chosen_font size);
      EvText (origin size) "PA" white (chosen_font size);
      EvSave filename "PNG" (picture size)]
  ++ match io_error env filename with
     | Some _ => []
     | None => [EvPrint (confirmation size filename)]
     end.

(** How a write to [filename] ends, and the files after it. *)
Definition outcome (filename : string) : result unit :=
  match io_error env filename with
  | Some e => Raise e
  | None => Ok tt
  end.

Definition saved (filename data : string) (files : gmap string string)
  : gmap string string :=
  match io_error env filename with
  | Some _ => files
  | None => <[filename := data]> files
  end.

(** The first write of a run that fails, if any. *)
Definition first_io_error : option Py.exn :=
  head (omap (io_error env) icon_names).

(** The files a run tries to write: the names in order, up to and
    including the first whose write fails. *)
Fixpoint attempts (names : list string) : list string :=
  match names with
  | [] => []
  | f :: rest =>
      f :: match io_error env f with
           | Some _ => []
           | None => attempts rest
           end
  end.

(** The stub the fallback branch writes for an icon. *)
Definition placeholder (size : Z) : string :=
  "Placeholder icon " +:+ Py.str size +:+ "x" +:+ Py.str size.

Definition stub_calls (size : Z) (filename : string) : list event :=
  [EvWrite filename (placeholder size)].

Definition notice : string :=
  "PIL/Pillow not available. Creating simple text files as placeholders.".

(** A run over a list of icons in closed form: each icon in turn adds
    its [events] to the history and its [content] to the files, until
    a write fails.  Result, files and added history. *)
Fixpoint run_specs (content : Z -> string)
    (events : Z -> string -> list event) (specs : list (Z * string))
    (files : gmap string string)
  : result unit * gmap string string * list event :=
  match specs with
  | [] => (Ok tt, files, [])
  | (size, f) :: rest =>
      match io_error env f with
      | Some e => (Raise e, files, events size f)
      | None =>
          let '(r, files', evs) :=
            run_specs content events rest (<[f := content size]> files) in
          (r, files', events size f ++ evs)
      end
  end.

Definition png (size : Z) : string := png_encode env (picture size).

End WithEnv.

(** *** Sample installations *)

Definition empty_world : World := mkWorld ∅ [].

(** A stand-in for the PNG encoder: the size and the pixels, spelled
    out. *)
Definition sample_encode (img : Image) : string :=
  String.concat " "
    ("PNG"%string :: pretty (fst (im_size img)) :: pretty (snd (im_size img))
     :: ((fun p => pretty (red p) +:+ "," +:+ pretty (green p) +:+ ","
                   +:+ pretty (blue p) +:+ "," +:+ pretty (alpha p))
           <$> concat (im_rows img))).

(** Metrics of a face: the box of "PA" grows with the point size; the
    built-in face has one fixed size. *)
Definition sample_bbox (font : Font) (txt : string) : Z * Z * Z * Z :=
  match font with
  | FreeTypeFont _ pt => (0, pt / 4, 3 * pt / 2, pt)
  | DefaultFont => (0, 0, 21, 11)
  end.

(** Glyphs that cover their box with a soft edge. *)
Definition sample_glyphs (font : Font) (txt : string) (dx dy : Z) : Z :=
  let '(l, t, r, b) := sample_bbox font txt in
  if (l <? dx) && (dx <? r - 1) && (t <? dy) && (dy <? b - 1) then 255
  else if (l <=? dx) && (dx <? r) && (t <=? dy) && (dy <? b) then 128
  else 0.

(** Pillow and the DejaVu face installed, a writable directory. *)
Definition desktop : Env :=
  mkEnv true (fun _ _ => None) sample_bbox sample_glyphs sample_encode
    (fun _ => None).

(** Pillow installed, the font file missing. *)
Definition no_font : Env :=
  mkEnv true (fun path _ => Some (Py.OSError 2 path)) sample_bbox
    sample_glyphs sample_encode (fun _ => None).

(** Pillow not installed. *)
Definition no_pillow : Env :=
  mkEnv false (fun _ _ => None) sample_bbox sample_glyphs sample_encode
    (fun _ => None).

(** Pillow installed, [icon48.png] not writable. *)
Definition read_only_48 : Env :=
  mkEnv true (fun _ _ => None) sample_bbox sample_glyphs sample_encode
    (fun f => if String.eqb f "icon48.png"
              then Some (Py.PermissionError f) else None).

(** Pillow not installed and [icon48.png] not writable. *)
Definition no_pillow_read_only_48 : Env :=
  mkEnv false (fun _ _ => None) sample_bbox sample_glyphs sample_encode
    (fun f => if String.eqb f "icon48.png"
              then Some (Py.PermissionError f) else None).

End Obs.

(* ===================================================================== *)
(** ** More readings: pixels and calls *)
(* ===================================================================== *)

Module View.
Import PIL Script Obs.

(** The pixel in column [x] of row [y], if the image has one there. *)
Definition pixel (img : Image) (x y : Z) : option Pixel :=
  if (x <? 0) || (y <? 0) then None
  else row ← im_rows img !! Z.to_nat y; row !! Z.to_nat x.

(** The segments handed to [draw.line], with their colours, in order. *)
Definition lines (evs : list event) : list ((Z * Z) * (Z * Z) * Pixel) :=
  omap (fun e => match e with
                 | EvLine p0 p1 fill => Some (p0, p1, fill)
                 | _ => None
                 end) evs.

(** The calls that load a font, in order. *)
Definition font_loads (evs : list event) : list event :=
  List.filter (fun e => match e with
                        | EvTruetype _ _ | EvLoadDefault => true
                        | _ => false
                        end) evs.

(** The fonts the text is measured and drawn with, in order. *)
Definition text_fonts (evs : list event) : list Font :=
  omap (fun e => match e with
                 | EvTextbbox _ _ font | EvText _ _ _ font => Some font
                 | _ => None
                 end) evs.

(** The segment the gradient loop draws on row [i]. *)
Definition row_line (size i : Z) : (Z * Z) * (Z * Z) * Pixel :=
  ((0, i), (size, i), color i size).

(** The gradient loop of [create_icon], lines 16-23. *)
Definition gradient_rows (size : Z) (img : Image) : M Image :=
  for_in (Py.range size)
    (fun i img => draw_line img (0, i) (size, i) (color i size)) img.

End View.

(* ===================================================================== *)
(** ** Rounding to the nearest double *)
(* ===================================================================== *)

Module Float.
Import Py.
Local Open Scope Q_scope.

(** *** The nearest integer *)

Lemma rne_bounds (x : Q) : (Qfloor x <= rne x <= Qfloor x + 1)%Z.
Proof.
  unfold rne. destruct (Qcompare _ _); [destruct (Z.even _)| |]; lia.
Qed.

Lemma rne_le (x y : Q) : x <= y -> (rne x <= rne y)%Z.
Proof.
  intros Hxy. pose proof (Qfloor_resp_le x y Hxy) as Hf.
  pose proof (rne_bounds x). pose proof (rne_bounds y).
  destruct (Z.eq_dec (Qfloor x) (Qfloor y)) as [E|NE]; [|lia].
  unfold rne. rewrite <- E.
  destruct (Qcompare_spec (x - inject_Z (Qfloor x)) (1 # 2)) as [Hx|Hx|Hx];
    destruct (Qcompare_spec (y - inject_Z (Qfloor x)) (1 # 2))
      as [Hy|Hy|Hy];
    try destruct (Z.even (Qfloor x)); try lia; exfalso; lra.
Qed.

Lemma rne_inject_Z (k : Z) : rne (inject_Z k) = k.
Proof.
  unfold rne. rewrite Qfloor_Z.
  destruct (Qcompare_spec (inject_Z k - inject_Z k) (1 # 2)) as [H|H|H];
    [exfalso; lra | reflexivity | exfalso; lra].
Qed.

Lemma rne_comp (x y : Q) : x == y -> rne x = rne y.
Proof.
  intros E. unfold rne. rewrite (Qfloor_comp _ _ E).
  assert (H : x - inject_Z (Qfloor y) == y - inject_Z (Qfloor y))
    by (rewrite E; reflexivity).
  rewrite (Qcompare_comp _ _ H _ _ (Qeq_refl (1 # 2))). reflexivity.
Qed.

(** *** Powers of two *)

Lemma pow2_pos (e : Z) : 0 < 2 ^ e.
Proof. apply Qpower_0_lt. reflexivity. Qed.

Lemma pow2_le (a b : Z) : (a <= b)%Z -> 2 ^ a <= 2 ^ b.
Proof. intros H. apply Qpower_le_compat_l; [exact H | discriminate]. Qed.

Lemma pow2_plus (a b : Z) : 2 ^ (a + b) == 2 ^ a * 2 ^ b.
Proof. apply Qpower_plus. discriminate. Qed.

Lemma pow2_inject (n : Z) : (0 <= n)%Z -> inject_Z (2 ^ n) == 2 ^ n.
Proof. intros H. apply (Zpower_Qpower 2 n H). Qed.

(** *** The binade of a positive rational *)

Lemma ilog2_spec (x : Q) :
  0 < x -> 2 ^ ilog2 x <= x /\ x < 2 ^ (ilog2 x + 1).
Proof.
  intros Hx. destruct x as [n d].
  assert (Hn : (0 < n)%Z) by (unfold Qlt in Hx; simpl in Hx; lia).
  unfold ilog2. cbn [Qnum Qden].
  set (ln := Z.log2 n). set (ld := Z.log2 (Z.pos d)).
  destruct (Z.log2_spec n Hn) as [Hn1 Hn2]. fold ln in Hn1, Hn2.
  destruct (Z.log2_spec (Z.pos d) (Pos2Z.is_pos d)) as [Hd1 Hd2].
  fold ld in Hd1, Hd2.
  assert (Hln : (0 <= ln)%Z) by apply Z.log2_nonneg.
  assert (Hld : (0 <= ld)%Z) by apply Z.log2_nonneg.
  assert (Eq : n # d == inject_Z n / inject_Z (Z.pos d))
    by apply Qmake_Qdiv.
  assert (Hdpos : 0 < inject_Z (Z.pos d)) by (unfold Qlt; simpl; lia).
  (* the bounds of numerator and denominator, as rationals *)
  assert (Qn1 : 2 ^ ln <= inject_Z n)
    by (rewrite <- pow2_inject by lia; rewrite <- Zle_Qle; exact Hn1).
  assert (Qn2 : inject_Z n < 2 ^ (ln + 1))
    by (rewrite <- pow2_inject by lia; rewrite <- Zlt_Qlt; exact Hn2).
  assert (Qd1 : 2 ^ ld <= inject_Z (Z.pos d))
    by (rewrite <- pow2_inject by lia; rewrite <- Zle_Qle; exact Hd1).
  assert (Qd2 : inject_Z (Z.pos d) < 2 ^ (ld + 1))
    by (rewrite <- pow2_inject by lia; rewrite <- Zlt_Qlt; exact Hd2).
  (* 2^(k-1) <= n/d < 2^(k+1) with k = ln - ld *)
  assert (Hup : n # d < 2 ^ (ln - ld + 1)).
  { rewrite Eq. apply Qlt_shift_div_r; [exact Hdpos|].
    assert (E : 2 ^ (ln - ld + 1) * 2 ^ ld == 2 ^ (ln + 1))
      by (rewrite <- pow2_plus; apply Qpower_comp; [reflexivity | lia]).
    pose proof (pow2_pos (ln - ld + 1)) as Hp.
    revert E Qn2 Qd1 Hp Hdpos.
    generalize (2 ^ (ln - ld + 1)) (2 ^ ld) (2 ^ (ln + 1))
      (inject_Z n) (inject_Z (Z.pos d)).
    intros; nra. }
  assert (Hlow : 2 ^ (ln - ld - 1) <= n # d).
  { rewrite Eq. apply Qle_shift_div_l; [exact Hdpos|].
    assert (E : 2 ^ (ln - ld - 1) * 2 ^ (ld + 1) == 2 ^ ln)
      by (rewrite <- pow2_plus; apply Qpower_comp; [reflexivity | lia]).
    pose proof (pow2_pos (ln - ld - 1)) as Hp.
    revert E Qn1 Qd2 Hp Hdpos.
    generalize (2 ^ (ln - ld - 1)) (2 ^ (ld + 1)) (2 ^ ln)
      (inject_Z n) (inject_Z (Z.pos d)).
    intros; nra. }
  destruct (Qle_bool (2 ^ (ln - ld)) (n # d)) eqn:Hb.
  - apply Qle_bool_iff in Hb. split; assumption.
  - split; [exact Hlow|].
    replace (ln - ld - 1 + 1)%Z with (ln - ld)%Z by lia.
    apply Qnot_le_lt. intros Hc. apply Qle_bool_iff in Hc. congruence.
Qed.

Lemma ilog2_le (x y : Q) : 0 < x -> x <= y -> (ilog2 x <= ilog2 y)%Z.
Proof.
  intros Hx Hxy.
  destruct (ilog2_spec x Hx) as [Hx1 _].
  destruct (ilog2_spec y) as [_ Hy2]; [lra|].
  assert (H : 2 ^ ilog2 x < 2 ^ (ilog2 y + 1)) by lra.
  apply Qpower_lt_compat_l_inv in H; [lia | reflexivity].
Qed.

(** *** The spacing of the doubles *)

Lemma ulp_pos (x : Q) : 0 < ulp x.
Proof. apply pow2_pos. Qed.

(** A positive [x] is below 2^53 of its ulps, and at least 2^52 of them
    unless it is subnormal. *)
Lemma ulp_upper (x : Q) : 0 < x -> x < 2 ^ 53 * ulp x.
Proof.
  intros Hx. destruct (ilog2_spec x Hx) as [_ H2]. unfold ulp.
  rewrite <- pow2_plus.
  apply Qlt_le_trans with (1 := H2). apply pow2_le. lia.
Qed.

Lemma ulp_lower (x : Q) :
  0 < x -> (-1022 <= ilog2 x)%Z -> 2 ^ 52 * ulp x <= x.
Proof.
  intros Hx Hn. destruct (ilog2_spec x Hx) as [H1 _]. unfold ulp.
  rewrite <- pow2_plus.
  apply Qle_trans with (2 := H1). apply pow2_le. lia.
Qed.

(** *** The nearest double of a non-negative rational *)

Lemma nearest_upper (x : Q) : 0 < x -> nearest x <= 2 ^ 53 * ulp x.
Proof.
  intros Hx. unfold nearest. pose proof (ulp_pos x) as Hu.
  apply Qmult_le_compat_r; [|lra].
  rewrite <- pow2_inject by lia. rewrite <- Zle_Qle.
  rewrite <- (rne_inject_Z (2 ^ 53)). apply rne_le.
  rewrite pow2_inject by lia.
  apply Qle_shift_div_r; [exact Hu|]. apply Qlt_le_weak, ulp_upper, Hx.
Qed.

Lemma nearest_lower (x : Q) :
  0 < x -> (-1022 <= ilog2 x)%Z -> 2 ^ 52 * ulp x <= nearest x.
Proof.
  intros Hx Hn. unfold nearest. pose proof (ulp_pos x) as Hu.
  apply Qmult_le_compat_r; [|lra].
  rewrite <- pow2_inject by lia. rewrite <- Zle_Qle.
  rewrite <- (rne_inject_Z (2 ^ 52)). apply rne_le.
  rewrite pow2_inject by lia.
  apply Qle_shift_div_l; [exact Hu|]. apply ulp_lower; assumption.
Qed.

Lemma nearest_nonneg (x : Q) : 0 <= x -> 0 <= nearest x.
Proof.
  intros Hx. unfold nearest. pose proof (ulp_pos x) as Hu.
  apply Qmult_le_0_compat; [|lra].
  change 0 with (inject_Z 0). rewrite <- Zle_Qle.
  rewrite <- (rne_inject_Z 0). apply rne_le.
  apply Qle_shift_div_l; [exact Hu|].
  change (inject_Z 0) with 0. rewrite Qmult_0_l. exact Hx.
Qed.

Lemma nearest_0 (x : Q) : x == 0 -> nearest x == 0.
Proof.
  intros E. unfold nearest.
  assert (H : x / ulp x == inject_Z 0).
  { unfold Qdiv.
    rewrite (Qmult_comp _ _ E _ _ (Qeq_refl (/ ulp x))). apply Qmult_0_l. }
  rewrite (rne_comp _ _ H), rne_inject_Z. apply Qmult_0_l.
Qed.

(** Within one binade the mantissas are ordered as the numbers are; a
    number of a lower binade rounds to at most the first double of the
    next one. *)
Lemma nearest_le_pos (x y : Q) :
  0 < x -> x <= y -> nearest x <= nearest y.
Proof.
  intros Hx Hxy. pose proof (ilog2_le x y Hx Hxy) as Hl.
  destruct (Z.eq_dec (Z.max (ilog2 x) (-1022)) (Z.max (ilog2 y) (-1022)))
    as [E|NE].
  - unfold nearest, ulp. rewrite <- E.
    pose proof (pow2_pos (Z.max (ilog2 x) (-1022) - 52)) as Hu.
    apply Qmult_le_compat_r; [|lra].
    rewrite <- Zle_Qle. apply rne_le.
    apply Qmult_le_compat_r; [exact Hxy|].
    apply Qlt_le_weak, Qinv_lt_0_compat, Hu.
  - assert (Hy : (-1022 <= ilog2 y)%Z) by lia.
    apply Qle_trans with (1 := nearest_upper x Hx).
    apply Qle_trans with (2 := nearest_lower y ltac:(lra) Hy).
    unfold ulp. rewrite <- !pow2_plus. apply pow2_le. lia.
Qed.

Lemma nearest_le (x y : Q) : 0 <= x -> x <= y -> nearest x <= nearest y.
Proof.
  intros Hx Hxy. destruct (Qlt_le_dec 0 x) as [Hpos|H0].
  - apply nearest_le_pos; assumption.
  - rewrite (nearest_0 x) by lra. apply nearest_nonneg. lra.
Qed.

(** *** Rounding is monotone *)

Lemma round_le (x y : Q) : x <= y -> round x <= round y.
Proof.
  intros Hxy. unfold round.
  destruct (Qle_bool 0 x) eqn:Hx; destruct (Qle_bool 0 y) eqn:Hy.
  - apply Qle_bool_iff in Hx. apply nearest_le; assumption.
  - apply Qle_bool_iff in Hx.
    assert (~ 0 <= y) by (intros Hc; apply Qle_bool_iff in Hc; congruence).
    exfalso. lra.
  - assert (~ 0 <= x) by (intros Hc; apply Qle_bool_iff in Hc; congruence).
    apply Qle_bool_iff in Hy.
    pose proof (nearest_nonneg (- x) ltac:(lra)).
    pose proof (nearest_nonneg y Hy). lra.
  - assert (~ 0 <= x) by (intros Hc; apply Qle_bool_iff in Hc; congruence).
    assert (~ 0 <= y) by (intros Hc; apply Qle_bool_iff in Hc; congruence).
    pose proof (nearest_le (- y) (- x) ltac:(lra) ltac:(lra)). lra.
Qed.

Lemma round_comp (x y : Q) : x == y -> round x == round y.
Proof.
  intros E. apply Qle_antisym; apply round_le; rewrite E; apply Qle_refl.
Qed.

(** *** Against the processor

    On the sample quotients [Py.truediv] returns the double the
    division of the processor returns, and on the sample integers
    [Py.float] the double its conversion returns. *)

Lemma truediv_matches_hardware :
  forallb (fun '(a, b) =>
             Qeq_bool (truediv a b)
               (Binary64.to_Q (Binary64.truediv a b)))
    Binary64.division_samples = true.
Proof. vm_cast_no_check (eq_refl true). Qed.

Lemma float_matches_hardware :
  forallb (fun n =>
             Qeq_bool (float n) (Binary64.to_Q (Binary64.float_of_int n)))
    Binary64.conversion_samples = true.
Proof. vm_cast_no_check (eq_refl true). Qed.

(** [int] of a non-negative float is its floor. *)
Lemma int_floor (x : Q) : 0 <= x -> int x = Qfloor x.
Proof.
  intros Hx. destruct x as [n d]. unfold int, Qfloor. simpl.
  apply Z.quot_div_nonneg; [|lia].
  unfold Qle in Hx. simpl in Hx. lia.
Qed.

End Float.

(* ===================================================================== *)
(** ** The gradient colour *)
(* ===================================================================== *)

Module Gradient.
Import PIL Script Obs.

Lemma color_channels (i size : Z) :
  color i size
  = (channel 102 16 i size, channel 126 (-51) i size,
     channel 234 (-72) i size, 255).
Proof. reflexivity. Qed.

Lemma alpha_color (i size : Z) : alpha (color i size) = 255.
Proof. reflexivity. Qed.

(** A quotient of integers between two fractions. *)
Lemma quotient_ge (p : Z) (q : positive) (n size : Z) :
  0 < size -> p * size <= n * Z.pos q ->
  (p # q <= inject_Z n / inject_Z size)%Q.
Proof.
  intros Hs H. apply Qle_shift_div_l.
  - unfold Qlt. simpl. lia.
  - unfold Qle, Qmult, inject_Z. simpl. rewrite Pos.mul_1_r. lia.
Qed.

Lemma quotient_le (p : Z) (q : positive) (n size : Z) :
  0 < size -> n * Z.pos q <= p * size ->
  (inject_Z n / inject_Z size <= p # q)%Q.
Proof.
  intros Hs H. apply Qle_shift_div_r.
  - unfold Qlt. simpl. lia.
  - unfold Qle, Qmult, inject_Z. simpl. rewrite Pos.mul_1_r. lia.
Qed.

Lemma quotient_mono (n m size : Z) :
  0 < size -> n <= m ->
  (inject_Z n / inject_Z size <= inject_Z m / inject_Z size)%Q.
Proof.
  intros Hs H. apply Qmult_le_compat_r.
  - rewrite <- Zle_Qle. exact H.
  - apply Qlt_le_weak, Qinv_lt_0_compat. unfold Qlt. simpl. lia.
Qed.

(** A channel whose quotient lies between two doubles [lo] and [hi]:
    both roundings keep it between them, and [int] takes the floor. *)
Lemma channel_bounds (a b i size : Z) (lo hi : Q) :
  representable (inject_Z a) -> representable lo -> representable hi ->
  representable (inject_Z a + lo) -> representable (inject_Z a + hi) ->
  (0 <= inject_Z a + lo)%Q ->
  (lo <= inject_Z (b * i) / inject_Z size)%Q ->
  (inject_Z (b * i) / inject_Z size <= hi)%Q ->
  Qfloor (inject_Z a + lo) <= channel a b i size
  <= Qfloor (inject_Z a + hi).
Proof.
  unfold representable. intros Ha Hlo Hhi Halo Hahi H0 Hl Hh.
  unfold channel, Py.add, Py.float, Py.truediv.
  set (q := Py.round (inject_Z (b * i) / inject_Z size)).
  assert (Hq : (lo <= q <= hi)%Q).
  { split; [rewrite <- Hlo | rewrite <- Hhi]; apply Float.round_le;
      assumption. }
  set (s := Py.round (Py.round (inject_Z a) + q)).
  assert (Hs : (inject_Z a + lo <= s <= inject_Z a + hi)%Q).
  { split; [rewrite <- Halo | rewrite <- Hahi]; apply Float.round_le; lra. }
  rewrite Float.int_floor by lra.
  split; apply Qfloor_resp_le; lra.
Qed.

(** A channel follows its quotient: a larger quotient gives a channel
    at least as large. *)
Lemma channel_le (a b i j size : Z) (lo : Q) :
  representable (inject_Z a) -> representable lo -> representable (inject_Z a + lo) ->
  (0 <= inject_Z a + lo)%Q ->
  (lo <= inject_Z (b * i) / inject_Z size)%Q ->
  (inject_Z (b * i) / inject_Z size
   <= inject_Z (b * j) / inject_Z size)%Q ->
  channel a b i size <= channel a b j size.
Proof.
  unfold representable. intros Ha Hlo Halo H0 Hl Hij.
  unfold channel, Py.add, Py.float, Py.truediv.
  set (qi := Py.round (inject_Z (b * i) / inject_Z size)).
  set (qj := Py.round (inject_Z (b * j) / inject_Z size)).
  assert (Hqi : (lo <= qi)%Q)
    by (rewrite <- Hlo; apply Float.round_le; assumption).
  assert (Hqij : (qi <= qj)%Q) by (apply Float.round_le; assumption).
  assert (Hsi : (inject_Z a + lo
                 <= Py.round (Py.round (inject_Z a) + qi))%Q)
    by (rewrite <- Halo; apply Float.round_le; lra).
  assert (Hsij : (Py.round (Py.round (inject_Z a) + qi)
                  <= Py.round (Py.round (inject_Z a) + qj))%Q)
    by (apply Float.round_le; lra).
  rewrite !Float.int_floor by lra.
  apply Qfloor_resp_le. exact Hsij.
Qed.

(** The doubles the bounds of the channels go through. *)
Lemma representable_values :
  (representable (inject_Z 102) /\ representable (inject_Z 126) /\ representable (inject_Z 234))
  /\ (representable 0 /\ representable 16 /\ representable (-51) /\ representable (-72))
  /\ (representable (31 # 2) /\ representable (-99 # 2) /\ representable (-2241 # 32)).
Proof. unfold representable. vm_compute. repeat split; reflexivity. Qed.

Lemma representable_sums :
  (representable (inject_Z 102 + 0) /\ representable (inject_Z 102 + 16)
   /\ representable (inject_Z 102 + (31 # 2)))
  /\ (representable (inject_Z 126 + 0) /\ representable (inject_Z 126 + -51)
      /\ representable (inject_Z 126 + (-99 # 2)))
  /\ (representable (inject_Z 234 + 0) /\ representable (inject_Z 234 + -72)
      /\ representable (inject_Z 234 + (-2241 # 32))).
Proof. unfold representable. vm_compute. repeat split; reflexivity. Qed.

(** Red climbs from 102 to at most 118. *)
Lemma red_bounds (i size : Z) :
  0 < size -> 0 <= i <= size -> 102 <= channel 102 16 i size <= 118.
Proof.
  intros Hs Hi.
  destruct representable_values as ((E102 & _ & _) & (E0 & E16 & _ & _) & _).
  destruct representable_sums as ((S0 & S16 & _) & _ & _).
  apply (channel_bounds 102 16 i size 0 16); try assumption.
  - discriminate.
  - apply (quotient_ge 0 1); lia.
  - apply (quotient_le 16 1); lia.
Qed.

(** Green falls from 126 to at least 75. *)
Lemma green_bounds (i size : Z) :
  0 < size -> 0 <= i <= size -> 75 <= channel 126 (-51) i size <= 126.
Proof.
  intros Hs Hi.
  destruct representable_values as ((_ & E126 & _) & (E0 & _ & E51 & _) & _).
  destruct representable_sums as (_ & (S0 & S51 & _) & _).
  apply (channel_bounds 126 (-51) i size (-51) 0); try assumption.
  - discriminate.
  - apply (quotient_ge (-51) 1); lia.
  - apply (quotient_le 0 1); lia.
Qed.

(** Blue falls from 234 to at least 162. *)
Lemma blue_bounds (i size : Z) :
  0 < size -> 0 <= i <= size -> 162 <= channel 234 (-72) i size <= 234.
Proof.
  intros Hs Hi.
  destruct representable_values as ((_ & _ & E234) & (E0 & _ & _ & E72) & _).
  destruct representable_sums as (_ & _ & (S0 & S72 & _)).
  apply (channel_bounds 234 (-72) i size (-72) 0); try assumption.
  - discriminate.
  - apply (quotient_ge (-72) 1); lia.
  - apply (quotient_le 0 1); lia.
Qed.

(** Row 0 has the start colour. *)
Lemma first_row (size : Z) : 0 < size -> color 0 size = start_color.
Proof.
  intros Hs. rewrite color_channels. unfold start_color.
  destruct representable_values as ((E102 & E126 & E234) & (E0 & _) & _).
  destruct representable_sums as ((R0 & _) & (G0 & _) & (B0 & _)).
  pose proof (channel_bounds 102 16 0 size 0 0 E102 E0 E0 R0 R0
                ltac:(discriminate)
                ltac:(apply (quotient_ge 0 1); lia)
                ltac:(apply (quotient_le 0 1); lia)) as Hr.
  pose proof (channel_bounds 126 (-51) 0 size 0 0 E126 E0 E0 G0 G0
                ltac:(discriminate)
                ltac:(apply (quotient_ge 0 1); lia)
                ltac:(apply (quotient_le 0 1); lia)) as Hg.
  pose proof (channel_bounds 234 (-72) 0 size 0 0 E234 E0 E0 B0 B0
                ltac:(discriminate)
                ltac:(apply (quotient_ge 0 1); lia)
                ltac:(apply (quotient_le 0 1); lia)) as Hb.
  change (Qfloor (inject_Z 102 + 0)) with 102 in Hr.
  change (Qfloor (inject_Z 126 + 0)) with 126 in Hg.
  change (Qfloor (inject_Z 234 + 0)) with 234 in Hb.
  repeat f_equal; lia.
Qed.

(** From 37 pixels on, the last row is within 1 of the end colour. *)
Lemma last_row_long (N : Z) :
  37 <= N ->
  117 <= channel 102 16 (N - 1) N <= 118
  /\ 75 <= channel 126 (-51) (N - 1) N <= 76
  /\ 162 <= channel 234 (-72) (N - 1) N <= 163.
Proof.
  intros HN.
  destruct representable_values
    as ((E102 & E126 & E234) & (_ & E16 & E51 & E72) & (Er & Eg & Eb)).
  destruct representable_sums as ((_ & R16 & Rr) & (_ & G51 & Gg) & (_ & B72 & Bb)).
  split; [|split].
  - apply (channel_bounds 102 16 (N - 1) N (31 # 2) 16); try assumption.
    + discriminate.
    + apply quotient_ge; lia.
    + apply (quotient_le 16 1); lia.
  - apply (channel_bounds 126 (-51) (N - 1) N (-51) (-99 # 2));
      try assumption.
    + discriminate.
    + apply (quotient_ge (-51) 1); lia.
    + apply quotient_le; lia.
  - apply (channel_bounds 234 (-72) (N - 1) N (-72) (-2241 # 32));
      try assumption.
    + discriminate.
    + apply (quotient_ge (-72) 1); lia.
    + apply quotient_le; lia.
Qed.

(** Below 37 pixels the blue of the last row is at least 164. *)
Lemma last_row_short (N : Z) :
  1 <= N < 37 -> 164 <= blue (color (N - 1) N).
Proof.
  intros HN.
  assert (Hall : forallb (fun N => 164 <=? blue (color (N - 1) N))
                   (seqZ 1 36) = true) by (vm_compute; reflexivity).
  rewrite forallb_forall in Hall.
  apply Z.leb_le, Hall, list_elem_of_In, elem_of_seqZ. lia.
Qed.

(** On every row of every icon up to 32 pixels and of the 48 and 128
    pixel icons, the doubles of the processor give the colour that
    [color] gives. *)
Lemma binary64_agree_checked :
  forallb Binary64.agree Binary64.checked_sizes = true.
Proof. vm_cast_no_check (eq_refl true). Qed.

Lemma binary64_agrees (size i : Z) :
  In size Binary64.checked_sizes -> 0 <= i < size ->
  Binary64.color i size = color i size.
Proof.
  intros Hs Hi. pose proof binary64_agree_checked as Hall.
  rewrite forallb_forall in Hall. specialize (Hall size Hs).
  unfold Binary64.agree in Hall. rewrite forallb_forall in Hall.
  assert (Hi' : Binary64.Pixel_eqb (Binary64.color i size) (color i size)
                = true).
  { apply Hall. apply list_elem_of_In, elem_of_seqZ. lia. }
  destruct (Binary64.color i size) as [[[r g] b] a].
  destruct (color i size) as [[[r' g'] b'] a'].
  unfold Binary64.Pixel_eqb in Hi'.
  rewrite !andb_true_iff, !Z.eqb_eq in Hi'.
  destruct Hi' as [[[-> ->] ->] ->]. reflexivity.
Qed.

End Gradient.

(* ===================================================================== *)
(** ** The raster operations *)
(* ===================================================================== *)

Module Raster.
Import PIL Script Obs.

Lemma hline_full (size : Z) (c : Pixel) (row : list Pixel) :
  Z.of_nat (length row) <= size + 1 ->
  hline 0 size c row = replicate (length row) c.
Proof.
  intros Hlen. apply list_eq. intros x. unfold hline.
  rewrite list_lookup_imap.
  destruct (row !! x) as [p|] eqn:Hx; simpl.
  - apply lookup_lt_Some in Hx.
    rewrite lookup_replicate_2 by lia.
    replace (Z.min 0 size <=? Z.of_nat x) with true
      by (symmetry; apply Z.leb_le; lia).
    replace (Z.of_nat x <=? Z.max 0 size) with true
      by (symmetry; apply Z.leb_le; lia).
    reflexivity.
  - apply lookup_ge_None in Hx. symmetry. apply lookup_ge_None.
    rewrite length_replicate. lia.
Qed.

(** Turn [k] of the loop paints row [k] and nothing else. *)
Lemma paint_painted (size : Z) (k : nat) :
  Z.of_nat k < size ->
  paint size (painted size k) (Z.of_nat k) = painted size (S k).
Proof.
  intros Hk. unfold paint, PIL.line, painted. rewrite Z.eqb_refl. simpl.
  f_equal. apply list_eq. intros y.
  rewrite list_lookup_imap.
  rewrite seqZ_S, fmap_app. simpl. rewrite <- app_assoc. simpl.
  destruct (decide (y < k)%nat) as [Hlt|Hge].
  - rewrite !lookup_app_l by (rewrite length_fmap, length_seqZ; lia).
    destruct (_ !! y) eqn:E; simpl; [|reflexivity].
    replace (Z.of_nat y =? Z.of_nat k) with false
      by (symmetry; apply Z.eqb_neq; lia).
    reflexivity.
  - rewrite !lookup_app_r by (rewrite length_fmap, length_seqZ; lia).
    rewrite length_fmap, length_seqZ, Nat2Z.id.
    replace (Z.to_nat size - k)%nat with (S (Z.to_nat size - S k)) by lia.
    simpl. destruct (y - k)%nat as [|d] eqn:Hd; simpl.
    + replace (Z.of_nat y =? Z.of_nat k) with true
        by (symmetry; apply Z.eqb_eq; lia).
      rewrite hline_full by (rewrite length_replicate; lia).
      rewrite length_replicate. reflexivity.
    + destruct (_ !! d) eqn:E; simpl; [|reflexivity].
      replace (Z.of_nat y =? Z.of_nat k) with false
        by (symmetry; apply Z.eqb_neq; lia).
      reflexivity.
Qed.

Lemma fold_paint (size : Z) (k : nat) :
  Z.of_nat k <= size ->
  fold_left (paint size) (seqZ 0 (Z.of_nat k)) (blank size)
  = painted size k.
Proof.
  induction k as [|k IH]; intros Hk.
  - unfold painted, blank. simpl. rewrite Nat.sub_0_r. reflexivity.
  - rewrite seqZ_S, fold_left_app, IH by lia. simpl.
    apply paint_painted. lia.
Qed.

(** The whole loop turns the blank canvas into the gradient. *)
Lemma fold_paint_gradient (size : Z) :
  0 <= size ->
  fold_left (paint size) (Py.range size) (blank size) = gradient size.
Proof.
  intros Hs. unfold Py.range.
  rewrite <- (Z2Nat.id size) at 2 by lia.
  rewrite fold_paint by lia.
  unfold painted, gradient, Py.range.
  rewrite Nat.sub_diag, Z2Nat.id by lia.
  simpl. rewrite app_nil_r. reflexivity.
Qed.

Lemma gradient_square (size : Z) :
  0 <= size -> square_RGBA size (gradient size).
Proof.
  intros Hs. unfold square_RGBA, gradient, Py.range. simpl.
  rewrite length_fmap, length_seqZ.
  repeat split. apply Forall_fmap, Forall_forall. intros y _. simpl.
  apply length_replicate.
Qed.

(** The canvas starts fully transparent; after the loop no pixel is. *)
Lemma blank_transparent (size : Z) :
  Forall (Forall (fun p => alpha p = 0)) (im_rows (blank size)).
Proof.
  unfold blank. simpl. apply Forall_replicate, Forall_replicate. reflexivity.
Qed.

Lemma gradient_opaque (size : Z) : opaque (gradient size).
Proof.
  unfold opaque, gradient. simpl.
  apply Forall_fmap, Forall_forall. intros y _. simpl.
  apply Forall_replicate. reflexivity.
Qed.

(** Ink of alpha 255 on a pixel of alpha 255 leaves alpha 255, whatever
    the coverage. *)
Lemma BLEND_255 (mask : Z) : BLEND mask 255 255 = 255.
Proof.
  unfold BLEND.
  replace (255 * (255 - mask) + 255 * mask) with 65025 by ring.
  reflexivity.
Qed.

Lemma text_square (size : Z) img xy cov ink :
  square_RGBA size img -> square_RGBA size (PIL.text img xy cov ink).
Proof.
  intros (Hm & Hsz & Hlen & Hrows). destruct xy as [ox oy].
  unfold square_RGBA, PIL.text. simpl.
  rewrite length_imap. repeat split; try assumption.
  apply Forall_forall. intros row Hrow.
  apply elem_of_lookup_imap in Hrow as (y & row0 & -> & Hy).
  rewrite length_imap.
  rewrite Forall_forall in Hrows. apply Hrows.
  eapply list_elem_of_lookup_2; eassumption.
Qed.

Lemma text_opaque img xy cov r g b :
  opaque img -> opaque (PIL.text img xy cov (r, g, b, 255)).
Proof.
  unfold opaque. intros Himg. destruct xy as [ox oy]. simpl.
  apply Forall_forall. intros row Hrow.
  apply elem_of_lookup_imap in Hrow as (y & row0 & -> & Hy).
  apply Forall_forall. intros p Hp.
  apply elem_of_lookup_imap in Hp as (x & p0 & -> & Hx).
  rewrite Forall_forall in Himg.
  specialize (Himg row0 (list_elem_of_lookup_2 _ _ _ Hy)).
  rewrite Forall_forall in Himg.
  specialize (Himg p0 (list_elem_of_lookup_2 _ _ _ Hx)).
  destruct p0 as [[[r0 g0] b0] a0]. simpl in Himg. subst a0.
  simpl. apply BLEND_255.
Qed.

End Raster.

(* ===================================================================== *)
(** ** Running the script *)
(* ===================================================================== *)

Module Run.
Import PIL Script Obs.

Lemma bind_ok {A B} (m : M A) (k : A -> M B) (w w' : World) (a : A) :
  m w = (Ok a, w') -> bind m k w = k a w'.
Proof. intros H. unfold bind. rewrite H. reflexivity. Qed.

Lemma bind_raise {A B} (m : M A) (k : A -> M B) (w w' : World) e :
  m w = (Raise e, w') -> bind m k w = (Raise e, w').
Proof. intros H. unfold bind. rewrite H. reflexivity. Qed.

Lemma logged_nil (w : World) : logged w [] = w.
Proof. destruct w. unfold logged. simpl. rewrite app_nil_r. reflexivity. Qed.

(** *** Readings of a history *)

Lemma outputs_app evs evs' : outputs (evs ++ evs') = outputs evs ++ outputs evs'.
Proof. apply omap_app. Qed.

Lemma saves_app evs evs' : saves (evs ++ evs') = saves evs ++ saves evs'.
Proof. apply omap_app. Qed.

Lemma stubs_app evs evs' : stubs (evs ++ evs') = stubs evs ++ stubs evs'.
Proof. apply omap_app. Qed.

Lemma texts_app evs evs' : texts (evs ++ evs') = texts evs ++ texts evs'.
Proof. apply omap_app. Qed.

Lemma stubs_lines (size : Z) (l : list Z) :
  stubs ((fun i => EvLine (0, i) (size, i) (color i size)) <$> l) = [].
Proof. induction l as [|i l IH]; [reflexivity | exact IH]. Qed.

Lemma texts_lines (size : Z) (l : list Z) :
  texts ((fun i => EvLine (0, i) (size, i) (color i size)) <$> l) = [].
Proof. induction l as [|i l IH]; [reflexivity | exact IH]. Qed.

Lemma printed_app evs evs' :
  printed (evs ++ evs') = printed evs ++ printed evs'.
Proof. apply omap_app. Qed.

Lemma printed_lines (size : Z) (l : list Z) :
  printed ((fun i => EvLine (0, i) (size, i) (color i size)) <$> l) = [].
Proof. induction l as [|i l IH]; [reflexivity | exact IH]. Qed.

Lemma outputs_lines (size : Z) (l : list Z) :
  outputs ((fun i => EvLine (0, i) (size, i) (color i size)) <$> l) = [].
Proof. induction l as [|i l IH]; [reflexivity | exact IH]. Qed.

Lemma saves_lines (size : Z) (l : list Z) :
  saves ((fun i => EvLine (0, i) (size, i) (color i size)) <$> l) = [].
Proof. induction l as [|i l IH]; [reflexivity | exact IH]. Qed.

Section WithEnv.
Variable env : Env.

(** *** The statements of [create_icon] *)

Lemma Image_new_run (size : Z) (w : World) :
  0 <= size ->
  Image_new RGBA (size, size) (0, 0, 0, 0) w
  = (Ok (blank size), logged w [EvNew RGBA (size, size) (0, 0, 0, 0)]).
Proof.
  intros Hs. unfold Image_new, PIL.new, mbind, M_bind, bind, emit.
  replace (size <? 0) with false by (symmetry; apply Z.ltb_ge; lia).
  reflexivity.
Qed.

Lemma Image_new_negative (size : Z) (w : World) :
  size < 0 ->
  exists e, fst (Image_new RGBA (size, size) (0, 0, 0, 0) w) = Raise e.
Proof.
  intros Hs. unfold Image_new, PIL.new, mbind, M_bind, bind, emit.
  replace (size <? 0) with true by (symmetry; apply Z.ltb_lt; lia).
  eexists. reflexivity.
Qed.

Lemma gradient_loop (size : Z) (l : list Z) (img : Image) (w : World) :
  for_in l (fun i img => draw_line img (0, i) (size, i) (color i size))
    img w
  = (Ok (fold_left (paint size) l img),
     logged w ((fun i => EvLine (0, i) (size, i) (color i size)) <$> l)).
Proof.
  revert img w. induction l as [|i l IH]; intros img w.
  - simpl. rewrite logged_nil. reflexivity.
  - simpl. unfold mbind, M_bind, bind at 1. unfold draw_line at 1.
    unfold mbind, M_bind, bind, emit, mret, M_ret, ret. simpl.
    rewrite IH. unfold logged. simpl. rewrite <- app_assoc. reflexivity.
Qed.

(** The [try] statement always leaves a font: the bare [except]
    turns every exception of [ImageFont.truetype] into the default
    face. *)
Lemma load_font_run (size : Z) (w : World) :
  try_except (ImageFont_truetype env font_path (size / 2))
    ImageFont_load_default w
  = (Ok (chosen_font env size), logged w (font_calls env size)).
Proof.
  unfold try_except, ImageFont_truetype, ImageFont_load_default,
    chosen_font, font_calls, mbind, M_bind, bind, emit, raise, mret,
    M_ret, ret, logged.
  destruct (truetype_error env font_path (size / 2)); simpl;
    [rewrite <- app_assoc|]; reflexivity.
Qed.

Lemma store_run (filename data : string) (w : World) :
  store env filename data w
  = (outcome env filename, mkWorld (saved env filename data (fs w)) (log w)).
Proof.
  unfold store, outcome, saved.
  destruct (io_error env filename); [destruct w|]; reflexivity.
Qed.

Lemma img_save_run (img : Image) (filename : string) (w : World) :
  img_save env img filename "PNG" w
  = (outcome env filename,
     mkWorld (saved env filename (png_encode env img) (fs w))
       (log w ++ [EvSave filename "PNG" img])).
Proof.
  unfold img_save, mbind, M_bind, bind, emit. rewrite store_run.
  unfold outcome. destruct (io_error env filename); reflexivity.
Qed.

Lemma open_write_run (filename data : string) (w : World) :
  open_write env filename data w
  = (outcome env filename,
     mkWorld (saved env filename data (fs w))
       (log w ++ [EvWrite filename data])).
Proof.
  unfold open_write, mbind, M_bind, bind, emit. rewrite store_run.
  unfold outcome. destruct (io_error env filename); reflexivity.
Qed.

(** *** [create_icon] in closed form *)

Lemma create_icon_run (size : Z) (filename : string) (w : World) :
  0 <= size ->
  create_icon env size filename w
  = (outcome env filename,
     mkWorld (saved env filename (png env size) (fs w))
       (log w ++ calls env size filename)).
Proof.
  intros Hs. unfold create_icon, mbind, M_bind.
  erewrite bind_ok by (apply Image_new_run; exact Hs).
  erewrite bind_ok by apply gradient_loop.
  rewrite Raster.fold_paint_gradient by exact Hs.
  unfold Py.floordiv. fold font_path.
  erewrite bind_ok by apply load_font_run.
  unfold draw_textbbox, draw_text, print, mbind, M_bind.
  unfold bind at 1 2. unfold emit at 1, mret, M_ret, ret at 1.
  unfold calls, png, picture, origin.
  destruct (textbbox env (chosen_font env size) "PA") as [[[l t] r] b].
  unfold bind at 1 2. unfold emit at 1, ret at 1.
  unfold bind. rewrite img_save_run. fold white.
  unfold outcome, saved, emit, logged. simpl.
  destruct (io_error env filename); simpl;
    repeat rewrite <- app_assoc; reflexivity.
Qed.

(** *** [main] and the script in closed form *)

Lemma script_without_PIL (w : World) :
  pil_available env = false ->
  script env w = (Raise (Py.ModuleNotFoundError "PIL"), w).
Proof.
  intros H. unfold script, import_PIL, mbind, M_bind, bind. rewrite H.
  reflexivity.
Qed.

Lemma script_with_PIL (w : World) :
  pil_available env = true -> script env w = main env w.
Proof.
  intros H. unfold script, import_PIL, mbind, M_bind, bind. rewrite H.
  reflexivity.
Qed.

Lemma main_with_PIL (w : World) :
  pil_available env = true ->
  main env w
  = let '(r, files, evs) := run_specs env (png env) (calls env) icon_specs (fs w) in
    (r, mkWorld files (log w ++ evs)).
Proof.
  intros H. unfold main, import_PIL. rewrite H.
  unfold mret, M_ret, ret, mbind, M_bind, bind.
  rewrite create_icon_run by lia. unfold run_specs, icon_specs.
  unfold outcome, saved. cbn [fs log].
  destruct (io_error env "icon16.png"); [reflexivity|].
  rewrite create_icon_run by lia. unfold outcome, saved. cbn [fs log].
  destruct (io_error env "icon48.png");
    [rewrite <- app_assoc; reflexivity|].
  rewrite create_icon_run by lia. unfold outcome, saved. cbn [fs log].
  destruct (io_error env "icon128.png");
    rewrite ?app_nil_r, <- ?app_assoc; reflexivity.
Qed.

Lemma main_without_PIL (w : World) :
  pil_available env = false ->
  main env w
  = let '(r, files, evs) :=
      run_specs env placeholder stub_calls icon_specs (fs w) in
    (r, mkWorld files (log w ++ EvPrint notice :: evs)).
Proof.
  intros H. unfold main, import_PIL. rewrite H.
  unfold raise. cbn [Py.isinstance_ImportError].
  unfold print, mbind, M_bind, bind, emit. simpl.
  unfold mbind, M_bind, bind. fold notice.
  rewrite open_write_run. unfold outcome, saved. cbn [fs log].
  destruct (io_error env "icon16.png"); [rewrite <- app_assoc; reflexivity|].
  rewrite open_write_run. unfold outcome, saved. cbn [fs log].
  destruct (io_error env "icon48.png"); [rewrite <- !app_assoc; reflexivity|].
  rewrite open_write_run. unfold outcome, saved. cbn [fs log].
  destruct (io_error env "icon128.png"); rewrite <- !app_assoc; reflexivity.
Qed.

End WithEnv.
End Run.

(* ===================================================================== *)
(** ** Runs over the list of icons *)
(* ===================================================================== *)

Module Specs.
Import PIL Script Obs.

Section WithEnv.
Variable env : Env.
Variable content : Z -> string.
Variable events : Z -> string -> list event.

(** A run ends with the first failing write, or normally. *)
Lemma run_specs_result specs files :
  (run_specs env content events specs files).1.1
  = match head (omap (io_error env) specs.*2) with
    | Some e => Raise e
    | None => Ok tt
    end.
Proof.
  revert files. induction specs as [|[size f] rest IH]; intros files.
  - reflexivity.
  - simpl. destruct (io_error env f) as [e|] eqn:Ef; [reflexivity|].
    specialize (IH (<[f := content size]> files)).
    destruct (run_specs env content events rest _) as [[r files'] evs].
    exact IH.
Qed.


(** What a run finds in the directory has no influence on what it
    does: it lays its own files over the old ones. *)
Lemma run_specs_union specs files :
  run_specs env content events specs files
  = let '(r, out, evs) := run_specs env content events specs ∅ in
    (r, out ∪ files, evs).
Proof.
  revert files. induction specs as [|[size f] rest IH]; intros files.
  - simpl. rewrite (left_id_L ∅ (∪)). reflexivity.
  - simpl. destruct (io_error env f) as [e|] eqn:Ef.
    + rewrite (left_id_L ∅ (∪)). reflexivity.
    + rewrite (IH (<[f := content size]> files)).
      rewrite (IH (<[f := content size]> ∅)).
      destruct (run_specs env content events rest ∅) as [[r out] evs].
      rewrite insert_empty, <- (assoc_L (∪)), <- insert_union_singleton_l.
      reflexivity.
Qed.

(** A run in which no write fails, on the three icons. *)
Lemma run_specs_icons_ok files :
  head (omap (io_error env) icon_names) = None ->
  run_specs env content events icon_specs files
  = (Ok tt,
     <["icon128.png" := content 128]>
       (<["icon48.png" := content 48]>
          (<["icon16.png" := content 16]> files)),
     events 16 "icon16.png" ++ events 48 "icon48.png"
     ++ events 128 "icon128.png").
Proof.
  unfold icon_names, icon_specs. simpl.
  destruct (io_error env "icon16.png"); [discriminate|].
  destruct (io_error env "icon48.png"); [discriminate|].
  destruct (io_error env "icon128.png"); [discriminate|].
  intros _. rewrite app_nil_r. reflexivity.
Qed.

End WithEnv.

Lemma icon_specs_names : icon_specs.*2 = icon_names.
Proof. reflexivity. Qed.

Lemma attempts_all_ok env :
  head (omap (io_error env) icon_names) = None ->
  attempts env icon_names = icon_names.
Proof.
  unfold icon_names. simpl.
  destruct (io_error env "icon16.png"); [discriminate|].
  destruct (io_error env "icon48.png"); [discriminate|].
  destruct (io_error env "icon128.png"); [discriminate|].
  reflexivity.
Qed.

Lemma outputs_calls env size filename :
  outputs (calls env size filename) = [filename].
Proof.
  unfold calls, font_calls. cbn [outputs omap list_omap].
  change (omap _ ?l) with (outputs l).
  rewrite !Run.outputs_app, Run.outputs_lines.
  destruct (truetype_error env font_path (size / 2));
    destruct (io_error env filename); reflexivity.
Qed.

Lemma saves_calls env size filename :
  saves (calls env size filename) = [(filename, picture env size)].
Proof.
  unfold calls, font_calls. cbn [saves omap list_omap].
  change (omap _ ?l) with (saves l).
  rewrite !Run.saves_app, Run.saves_lines.
  destruct (truetype_error env font_path (size / 2));
    destruct (io_error env filename); reflexivity.
Qed.

Lemma stubs_calls env size filename : stubs (calls env size filename) = [].
Proof.
  unfold calls, font_calls. cbn [stubs omap list_omap].
  change (omap _ ?l) with (stubs l).
  rewrite !Run.stubs_app, Run.stubs_lines.
  destruct (truetype_error env font_path (size / 2));
    destruct (io_error env filename); reflexivity.
Qed.

Lemma printed_calls env size filename :
  io_error env filename = None ->
  printed (calls env size filename) = [confirmation size filename].
Proof.
  intros Hio. unfold calls, font_calls. cbn [printed omap list_omap].
  change (omap _ ?l) with (printed l).
  rewrite !Run.printed_app, Run.printed_lines, Hio.
  destruct (truetype_error env font_path (size / 2)); reflexivity.
Qed.



Lemma picture_square env size :
  0 <= size -> square_RGBA size (picture env size).
Proof.
  intros Hs. unfold picture. apply Raster.text_square, Raster.gradient_square.
  exact Hs.
Qed.

Lemma picture_opaque env size : opaque (picture env size).
Proof. unfold picture, white. apply Raster.text_opaque, Raster.gradient_opaque. Qed.

End Specs.

(* ===================================================================== *)
(** ** The properties of the specification *)
(* ===================================================================== *)

Module Claims.
Import PIL Script Obs.

(** *** Shared facts about whole runs *)

Lemma main_ok_no_io_error env w :
  fst (main env w) = Ok tt -> head (omap (io_error env) icon_names) = None.
Proof.
  intros Hok. rewrite <- Specs.icon_specs_names.
  destruct (pil_available env) eqn:Hpil.
  - rewrite Run.main_with_PIL in Hok by exact Hpil.
    pose proof (Specs.run_specs_result env (png env) (calls env)
                  icon_specs (fs w)) as Hr.
    destruct (run_specs env (png env) (calls env) icon_specs (fs w))
      as [[r files] evs].
    simpl in Hok, Hr. rewrite Hok in Hr.
    destruct (head _); [discriminate | reflexivity].
  - rewrite Run.main_without_PIL in Hok by exact Hpil.
    pose proof (Specs.run_specs_result env placeholder stub_calls
                  icon_specs (fs w)) as Hr.
    destruct (run_specs env placeholder stub_calls icon_specs (fs w))
      as [[r files] evs].
    simpl in Hok, Hr. rewrite Hok in Hr.
    destruct (head _); [discriminate | reflexivity].
Qed.

Lemma script_ok_PIL env w :
  fst (script env w) = Ok tt -> pil_available env = true.
Proof.
  intros Hok. destruct (pil_available env) eqn:Hpil; [reflexivity|].
  rewrite Run.script_without_PIL in Hok by exact Hpil. discriminate.
Qed.

(** A run with Pillow in which no write fails. *)
Lemma main_with_PIL_ok env w :
  pil_available env = true ->
  head (omap (io_error env) icon_names) = None ->
  main env w
  = (Ok tt,
     mkWorld
       (<["icon128.png" := png env 128]>
          (<["icon48.png" := png env 48]>
             (<["icon16.png" := png env 16]> (fs w))))
       (log w ++ calls env 16 "icon16.png" ++ calls env 48 "icon48.png"
        ++ calls env 128 "icon128.png")).
Proof.
  intros Hpil Hio. rewrite Run.main_with_PIL by exact Hpil.
  rewrite Specs.run_specs_icons_ok by exact Hio. reflexivity.
Qed.

(** The branch of [main] for a missing Pillow, if it is ever entered,
    writes the three stubs. *)
Lemma main_without_PIL_ok env w :
  pil_available env = false ->
  head (omap (io_error env) icon_names) = None ->
  main env w
  = (Ok tt,
     mkWorld
       (<["icon128.png" := "Placeholder icon 128x128"]>
          (<["icon48.png" := "Placeholder icon 48x48"]>
             (<["icon16.png" := "Placeholder icon 16x16"]> (fs w))))
       (log w ++ [EvPrint notice;
                  EvWrite "icon16.png" "Placeholder icon 16x16";
                  EvWrite "icon48.png" "Placeholder icon 48x48";
                  EvWrite "icon128.png" "Placeholder icon 128x128"])).
Proof.
  intros Hpil Hio. rewrite Run.main_without_PIL by exact Hpil.
  rewrite Specs.run_specs_icons_ok by exact Hio. reflexivity.
Qed.

(** No run of the script writes a stub: with Pillow [main] takes the
    drawing branch, without it the script ends at line 7. *)
Lemma script_writes_no_stub env w :
  stubs (log (snd (script env w))) = stubs (log w).
Proof.
  destruct (pil_available env) eqn:Hpil.
  - rewrite Run.script_with_PIL, Run.main_with_PIL by exact Hpil.
    generalize (fs w). generalize icon_specs. intros specs.
    assert (Hrun : forall files,
               stubs (run_specs env (png env) (calls env) specs files).2 = []).
    { induction specs as [|[size f] rest IH]; intros files; cbn [run_specs].
      - reflexivity.
      - destruct (io_error env f); [apply Specs.stubs_calls|].
        specialize (IH (<[f := png env size]> files)).
        destruct (run_specs env (png env) (calls env) rest _)
          as [[r files'] evs].
        cbn [fst snd log] in *. rewrite Run.stubs_app, IH, Specs.stubs_calls.
        reflexivity. }
    intros files. specialize (Hrun files).
    destruct (run_specs env (png env) (calls env) specs files)
      as [[r files'] evs].
    cbn [fst snd log] in *. rewrite Run.stubs_app, Hrun, app_nil_r.
    reflexivity.
  - rewrite Run.script_without_PIL by exact Hpil. reflexivity.
Qed.

(** *** C1 *)

(** C1 (the code departs from it).  The specification: when Pillow is
    unavailable the run writes the three text stubs and reports no
    error.  The script: on an installation without Pillow, started in an
    empty directory, the run ends at the import of line 7 with
    [ModuleNotFoundError]; no file is written, nothing is printed, and
    [main], whose [except ImportError] branch would write the stubs
    ([main_without_PIL_ok]), is never called. *)
Theorem script_without_pillow_stops_at_import :
  script no_pillow empty_world
  = (Raise (Py.ModuleNotFoundError "PIL"), empty_world).
Proof. apply Run.script_without_PIL. reflexivity. Qed.

(** [main] on its own, entered without Pillow, writes the stubs. *)
Example main_without_pillow_writes_stubs :
  fst (main no_pillow empty_world) = Ok tt
  /\ fs (snd (main no_pillow empty_world)) !! "icon48.png"%string
     = Some "Placeholder icon 48x48"%string
  /\ drawing (log (snd (main no_pillow empty_world))) = [].
Proof. vm_compute. repeat split; reflexivity. Qed.

(** *** C2 *)

Example last_rows :
  color 15 16 = (117, 78, 166, 255)
  /\ color 47 48 = (117, 76, 163, 255)
  /\ color 127 128 = (117, 75, 162, 255).
Proof. vm_compute. repeat split; reflexivity. Qed.

(** Where the rounding shows: on a canvas of 2^60 pixels the quotient
    16 * (2^60 - 1) / 2^60 of the last row rounds to 16.0 and red
    reaches 118, which it never does in exact arithmetic. *)
Example last_row_rounded :
  color (2 ^ 60 - 1) (2 ^ 60) = (118, 75, 162, 255).
Proof. vm_compute. reflexivity. Qed.


(** C2, as stated, fails on the 16-pixel icon: the colour of row 0 is
    the start colour, but the colour of row 15 is (117, 78, 166, 255),
    three and four away from the end colour on green and blue. *)
Lemma gradient_last_row_16_off :
  1 <= 16 /\
  ~ (color 0 16 = start_color /\ near 1 (color (16 - 1) 16) end_color).
Proof.
  split; [lia|]. intros [_ (_ & Hg & _)].
  vm_compute in Hg. apply Hg. reflexivity.
Qed.

(** C2 (amended).  For every edge length N >= 1 the colour of row 0 is
    exactly (102, 126, 234, 255); the colour of row N-1 is within 1 per
    channel of (118, 75, 162, 255) exactly when N >= 37. *)
Theorem gradient_endpoints (N : Z) :
  1 <= N ->
  color 0 N = start_color /\
  (near 1 (color (N - 1) N) end_color <-> 37 <= N).
Proof.
  intros HN. split; [apply Gradient.first_row; lia|]. split.
  - intros (_ & _ & Hb & _).
    destruct (Z_lt_le_dec N 37) as [Hlt|]; [exfalso|assumption].
    pose proof (Gradient.last_row_short N ltac:(lia)) as Hblue.
    unfold end_color in Hb. cbn [blue] in Hb. lia.
  - intros H37. rewrite Gradient.color_channels.
    destruct (Gradient.last_row_long N H37) as (Hr & Hg & Hb).
    unfold near, end_color. cbn [red green blue alpha]. lia.
Qed.

Lemma gradient_endpoints_48 :
  1 <= 48 /\
  color 0 48 = start_color /\
  (near 1 (color (48 - 1) 48) end_color <-> 37 <= 48).
Proof. split; [lia | apply (gradient_endpoints 48); lia]. Defined.

(** *** C10 *)

(** C10.  For every size >= 1 and rows 0 <= i <= j < size: red does not
    decrease, green and blue do not increase from row i to row j, and
    on every row red stays in [102, 118], green in [75, 126] and blue in
    [162, 234]. *)
Theorem gradient_monotone_bounded (size i j : Z) :
  1 <= size -> 0 <= i -> i <= j -> j < size ->
  (red (color i size) <= red (color j size) /\
   green (color j size) <= green (color i size) /\
   blue (color j size) <= blue (color i size)) /\
  (102 <= red (color i size) <= 118 /\
   75 <= green (color i size) <= 126 /\
   162 <= blue (color i size) <= 234).
Proof.
  intros Hs Hi Hij Hj. rewrite !Gradient.color_channels.
  cbn [red green blue].
  destruct Gradient.representable_values
    as ((E102 & E126 & E234) & (E0 & _ & E51 & E72) & _).
  destruct Gradient.representable_sums
    as ((R0 & _) & (_ & G51 & _) & (_ & B72 & _)).
  split; [split; [|split] | split; [|split]].
  - apply (Gradient.channel_le 102 16 i j size 0); try assumption.
    + discriminate.
    + apply (Gradient.quotient_ge 0 1); lia.
    + apply Gradient.quotient_mono; lia.
  - apply (Gradient.channel_le 126 (-51) j i size (-51)); try assumption.
    + discriminate.
    + apply (Gradient.quotient_ge (-51) 1); lia.
    + apply Gradient.quotient_mono; lia.
  - apply (Gradient.channel_le 234 (-72) j i size (-72)); try assumption.
    + discriminate.
    + apply (Gradient.quotient_ge (-72) 1); lia.
    + apply Gradient.quotient_mono; lia.
  - apply Gradient.red_bounds; lia.
  - apply Gradient.green_bounds; lia.
  - apply Gradient.blue_bounds; lia.
Qed.

Lemma gradient_monotone_bounded_16 :
  (1 <= 16 /\ 0 <= 3 /\ 3 <= 15 /\ 15 < 16) /\
  (red (color 3 16) <= red (color 15 16) /\
   green (color 15 16) <= green (color 3 16) /\
   blue (color 15 16) <= blue (color 3 16)) /\
  (102 <= red (color 3 16) <= 118 /\
   75 <= green (color 3 16) <= 126 /\
   162 <= blue (color 3 16) <= 234).
Proof.
  split; [lia | apply (gradient_monotone_bounded 16 3 15); lia].
Defined.

(** *** C3 *)

(** C3.  For every size >= 1 and whatever box the font engine measures
    for "PA", [create_icon] measures the text once and then draws it
    once, at the point ((size - width) // 2, (size - height) // 2) with
    width and height taken from that box; nothing clamps the point, so
    it is negative as soon as the text is larger than the canvas. *)
Theorem text_origin_centered env (size : Z) (filename : string) w :
  1 <= size ->
  exists font pre post,
    let '(bbox0, bbox1, bbox2, bbox3) := textbbox env font "PA" in
    let x := Py.floordiv (size - (bbox2 - bbox0)) 2 in
    let y := Py.floordiv (size - (bbox3 - bbox1)) 2 in
    log (snd (create_icon env size filename w))
    = log w ++ pre
      ++ [EvTextbbox (0, 0) "PA" font; EvText (x, y) "PA" white font]
      ++ post
    /\ texts pre = [] /\ texts post = []
    /\ (size < bbox2 - bbox0 -> x < 0)
    /\ (size < bbox3 - bbox1 -> y < 0).
Proof.
  intros Hs. rewrite Run.create_icon_run by lia. cbn [snd log].
  exists (chosen_font env size),
    (EvNew RGBA (size, size) (0, 0, 0, 0)
     :: ((fun i => EvLine (0, i) (size, i) (color i size))
           <$> Py.range size) ++ font_calls env size),
    (EvSave filename "PNG" (picture env size)
     :: match io_error env filename with
        | Some _ => []
        | None => [EvPrint (confirmation size filename)]
        end).
  unfold calls, origin, Py.floordiv.
  destruct (textbbox env (chosen_font env size) "PA") as [[[l t] r] b].
  repeat split.
  - simpl. rewrite <- !app_assoc. reflexivity.
  - cbn [texts omap list_omap]. change (omap _ ?l) with (texts l).
    rewrite Run.texts_app, Run.texts_lines. unfold font_calls.
    destruct (truetype_error env font_path (size / 2)); reflexivity.
  - destruct (io_error env filename); reflexivity.
  - intros Hw. apply Z.div_lt_upper_bound; lia.
  - intros Hh. apply Z.div_lt_upper_bound; lia.
Qed.

Lemma text_origin_centered_no_font :
  1 <= 16 /\
  exists font pre post,
    let '(bbox0, bbox1, bbox2, bbox3) := textbbox no_font font "PA" in
    let x := Py.floordiv (16 - (bbox2 - bbox0)) 2 in
    let y := Py.floordiv (16 - (bbox3 - bbox1)) 2 in
    log (snd (create_icon no_font 16 "icon16.png" empty_world))
    = log empty_world ++ pre
      ++ [EvTextbbox (0, 0) "PA" font; EvText (x, y) "PA" white font]
      ++ post
    /\ texts pre = [] /\ texts post = []
    /\ (16 < bbox2 - bbox0 -> x < 0)
    /\ (16 < bbox3 - bbox1 -> y < 0).
Proof.
  split; [lia|].
  apply (text_origin_centered no_font 16 "icon16.png" empty_world). lia.
Defined.

(** With the built-in face, 21 pixels wide, on the 16-pixel icon the
    text starts 3 pixels left of the canvas. *)
Example text_origin_negative :
  texts (log (snd (create_icon no_font 16 "icon16.png" empty_world)))
  = [(-3, 2)].
Proof. vm_compute. reflexivity. Qed.

(** *** C4 *)

(** C4.  For every size >= 1, [create_icon] asks for the DejaVu Sans
    Bold face of the fixed path at size // 2 points; when that call
    raises, whatever the exception, the next calls are
    [ImageFont.load_default()], the measurement of "PA" in the default
    face and the drawing of "PA" in the default face at the point
    computed from that measurement, and the call ends as its save ends:
    the exception of the font load does not reach the caller. *)
Theorem font_fallback env (size : Z) (filename : string) w e :
  1 <= size ->
  truetype_error env font_path (Py.floordiv size 2) = Some e ->
  fst (create_icon env size filename w)
  = match io_error env filename with
    | Some e' => Raise e'
    | None => Ok tt
    end
  /\ exists pre post,
       let '(bbox0, bbox1, bbox2, bbox3) :=
         textbbox env DefaultFont "PA" in
       let x := Py.floordiv (size - (bbox2 - bbox0)) 2 in
       let y := Py.floordiv (size - (bbox3 - bbox1)) 2 in
       log (snd (create_icon env size filename w))
       = log w ++ pre
         ++ [EvTruetype font_path (Py.floordiv size 2);
             EvLoadDefault;
             EvTextbbox (0, 0) "PA" DefaultFont;
             EvText (x, y) "PA" white DefaultFont]
         ++ post.
Proof.
  intros Hs He. unfold Py.floordiv in *.
  rewrite Run.create_icon_run by lia. cbn [fst snd log].
  split; [reflexivity|].
  exists (EvNew RGBA (size, size) (0, 0, 0, 0)
          :: ((fun i => EvLine (0, i) (size, i) (color i size))
                <$> Py.range size)),
    (EvSave filename "PNG" (picture env size)
     :: match io_error env filename with
        | Some _ => []
        | None => [EvPrint (confirmation size filename)]
        end).
  unfold calls, font_calls, origin, chosen_font. rewrite He.
  destruct (textbbox env DefaultFont "PA") as [[[l t] r] b].
  simpl. rewrite <- ?app_assoc. reflexivity.
Qed.

Lemma font_fallback_no_font :
  (1 <= 16 /\
   truetype_error no_font font_path (Py.floordiv 16 2)
   = Some (Py.OSError 2 font_path)) /\
  fst (create_icon no_font 16 "icon16.png" empty_world)
  = match io_error no_font "icon16.png" with
    | Some e' => Raise e'
    | None => Ok tt
    end
  /\ exists pre post,
       let '(bbox0, bbox1, bbox2, bbox3) :=
         textbbox no_font DefaultFont "PA" in
       let x := Py.floordiv (16 - (bbox2 - bbox0)) 2 in
       let y := Py.floordiv (16 - (bbox3 - bbox1)) 2 in
       log (snd (create_icon no_font 16 "icon16.png" empty_world))
       = log empty_world ++ pre
         ++ [EvTruetype font_path (Py.floordiv 16 2);
             EvLoadDefault;
             EvTextbbox (0, 0) "PA" DefaultFont;
             EvText (x, y) "PA" white DefaultFont]
         ++ post.
Proof.
  split; [split; [lia | reflexivity]|].
  apply (font_fallback no_font 16 "icon16.png" empty_world
           (Py.OSError 2 font_path)); [lia | reflexivity].
Defined.

(** When the load succeeds the loaded face is the one used. *)
Lemma font_loaded env (size : Z) :
  truetype_error env font_path (size / 2) = None ->
  chosen_font env size = FreeTypeFont font_path (size / 2).
Proof. intros H. unfold chosen_font. rewrite H. reflexivity. Qed.

(** *** C9 *)

(** C9.  For every size >= 1 the image [create_icon] hands to
    [img.save] is a size by size RGBA raster all of whose pixels have
    alpha 255. *)
Theorem icon_opaque env (size : Z) (filename : string) w :
  1 <= size ->
  exists img,
    saves (log (snd (create_icon env size filename w)))
    = saves (log w) ++ [(filename, img)]
    /\ square_RGBA size img /\ opaque img.
Proof.
  intros Hs. rewrite Run.create_icon_run by lia. cbn [snd log].
  exists (picture env size).
  rewrite Run.saves_app, Specs.saves_calls.
  split; [reflexivity|]. split.
  - apply Specs.picture_square. lia.
  - apply Specs.picture_opaque.
Qed.

Lemma icon_opaque_desktop_16 :
  1 <= 16 /\
  exists img,
    saves (log (snd (create_icon desktop 16 "icon16.png" empty_world)))
    = saves (log empty_world) ++ [("icon16.png"%string, img)]
    /\ square_RGBA 16 img /\ opaque img.
Proof.
  split; [lia|].
  apply (icon_opaque desktop 16 "icon16.png" empty_world). lia.
Defined.

(** *** C5 *)

(** C5.  In every run with Pillow that ends normally, the three images
    saved, in this order under the names icon16.png, icon48.png and
    icon128.png, are RGBA rasters of 16 by 16, 48 by 48 and 128 by 128
    pixels, and each file holds the PNG encoding of its image. *)
Theorem output_images_square_RGBA env w :
  pil_available env = true ->
  fst (script env w) = Ok tt ->
  exists i16 i48 i128,
    let w' := snd (script env w) in
    saves (log w')
    = saves (log w)
      ++ [("icon16.png", i16); ("icon48.png", i48); ("icon128.png", i128)]%string
    /\ (fs w' !! "icon16.png"%string = Some (png_encode env i16)
        /\ fs w' !! "icon48.png"%string = Some (png_encode env i48)
        /\ fs w' !! "icon128.png"%string = Some (png_encode env i128))
    /\ (square_RGBA 16 i16 /\ square_RGBA 48 i48 /\ square_RGBA 128 i128).
Proof.
  intros Hpil Hok. rewrite Run.script_with_PIL in * by exact Hpil.
  apply main_ok_no_io_error in Hok.
  rewrite main_with_PIL_ok by assumption. cbn [snd fs log].
  exists (picture env 16), (picture env 48), (picture env 128).
  split; [|split].
  - rewrite !Run.saves_app, !Specs.saves_calls. reflexivity.
  - unfold png. repeat split.
    + rewrite !lookup_insert_ne by discriminate. apply lookup_insert_eq.
    + rewrite lookup_insert_ne by discriminate. apply lookup_insert_eq.
    + apply lookup_insert_eq.
  - repeat split; apply Specs.picture_square; lia.
Qed.

Lemma output_images_square_RGBA_desktop :
  (pil_available desktop = true /\
   fst (script desktop empty_world) = Ok tt) /\
  exists i16 i48 i128,
    let w' := snd (script desktop empty_world) in
    saves (log w')
    = saves (log empty_world)
      ++ [("icon16.png", i16); ("icon48.png", i48); ("icon128.png", i128)]%string
    /\ (fs w' !! "icon16.png"%string = Some (png_encode desktop i16)
        /\ fs w' !! "icon48.png"%string = Some (png_encode desktop i48)
        /\ fs w' !! "icon128.png"%string = Some (png_encode desktop i128))
    /\ (square_RGBA 16 i16 /\ square_RGBA 48 i48 /\ square_RGBA 128 i128).
Proof.
  assert (Hok : fst (script desktop empty_world) = Ok tt)
    by (vm_compute; reflexivity).
  split; [split; [reflexivity | exact Hok]|].
  apply (output_images_square_RGBA desktop empty_world);
    [reflexivity | exact Hok].
Defined.

(** *** C6 *)

(** C6.  On one installation every run of the script ends the same way
    and produces the same files with the same bytes, whatever the
    directory held before: the files after a run are the files of the
    run laid over the old ones, and a run that ends normally produces
    exactly icon16.png, icon48.png and icon128.png.  Hence a second run,
    over the outputs of the first, ends as the first did, overwrites
    each file it produces with the bytes the first run wrote and leaves
    the directory as the first run left it. *)
Theorem generator_repeatable env :
  exists (r : result unit) (out : gmap string string),
    (r = Ok tt -> dom out = list_to_set icon_names) /\
    forall w,
      let w1 := snd (script env w) in
      let w2 := snd (script env w1) in
      (fst (script env w) = r /\ fs w1 = out ∪ fs w) /\
      (fst (script env w1) = r /\ fs w2 = fs w1) /\
      (forall f, f ∈ dom out ->
                 fs w1 !! f = out !! f /\ fs w2 !! f = out !! f).
Proof.
  assert (Hfiles : forall (r : result unit) (out : gmap string string),
             (forall w, fst (script env w) = r
                        /\ fs (snd (script env w)) = out ∪ fs w) ->
             forall w,
               let w1 := snd (script env w) in
               let w2 := snd (script env w1) in
               (fst (script env w) = r /\ fs w1 = out ∪ fs w) /\
               (fst (script env w1) = r /\ fs w2 = fs w1) /\
               (forall f, f ∈ dom out ->
                          fs w1 !! f = out !! f /\ fs w2 !! f = out !! f)).
  { intros r out Hrun w. cbv zeta.
    destruct (Hrun w) as [Hr1 Hfs1].
    destruct (Hrun (snd (script env w))) as [Hr2 Hfs2].
    assert (Hsame : fs (snd (script env (snd (script env w))))
                    = fs (snd (script env w))).
    { rewrite Hfs2, Hfs1, (assoc_L (∪)), (idemp_L (∪)). reflexivity. }
    repeat split; try assumption.
    - rewrite Hfs1. apply elem_of_dom in H as [data Hdata].
      rewrite Hdata. apply lookup_union_Some_l. exact Hdata.
    - rewrite Hsame, Hfs1. apply elem_of_dom in H as [data Hdata].
      rewrite Hdata. apply lookup_union_Some_l. exact Hdata. }
  destruct (pil_available env) eqn:Hpil.
  - exists (run_specs env (png env) (calls env) icon_specs ∅).1.1,
      (run_specs env (png env) (calls env) icon_specs ∅).1.2.
    split.
    + intros Hok.
      pose proof (Specs.run_specs_result env (png env) (calls env)
                    icon_specs ∅) as Hr.
      rewrite Hok, Specs.icon_specs_names in Hr.
      destruct (head (omap (io_error env) icon_names)) eqn:Hio;
        [discriminate|].
      rewrite Specs.run_specs_icons_ok by exact Hio. cbn [fst snd].
      rewrite !dom_insert_L, dom_empty_L. unfold icon_names.
      cbn [list_to_set foldr]. apply set_eq. intros f.
      rewrite !elem_of_union, !elem_of_singleton, elem_of_empty. tauto.
    + apply Hfiles. intros w.
      rewrite Run.script_with_PIL, Run.main_with_PIL by exact Hpil.
      rewrite Specs.run_specs_union.
      destruct (run_specs env (png env) (calls env) icon_specs ∅)
        as [[r out] evs].
      split; reflexivity.
  - exists (Raise (Py.ModuleNotFoundError "PIL")), ∅.
    split; [discriminate|].
    apply Hfiles. intros w.
    rewrite Run.script_without_PIL by exact Hpil. cbn [fst snd].
    rewrite (left_id_L ∅ (∪)). split; reflexivity.
Qed.

(** *** C7 *)

(** C7.  In every run of [main] that ends normally the files written
    are, in this order, icon16.png, icon48.png and icon128.png, and
    nothing else; all three exist afterwards.  With Pillow the icons are
    confirmed in the order 16, 48, 128; in the branch for a missing
    Pillow the stubs are written in the same order. *)
Theorem icons_in_order env w :
  fst (main env w) = Ok tt ->
  let w' := snd (main env w) in
  outputs (log w')
  = outputs (log w) ++ ["icon16.png"; "icon48.png"; "icon128.png"]%string
  /\ Forall (fun f => is_Some (fs w' !! f)) icon_names
  /\ (pil_available env = true ->
      printed (log w')
      = printed (log w)
        ++ ["Created icon16.png (16x16)"; "Created icon48.png (48x48)";
            "Created icon128.png (128x128)"]%string)
  /\ (pil_available env = false ->
      stubs (log w')
      = stubs (log w)
        ++ [("icon16.png", "Placeholder icon 16x16");
            ("icon48.png", "Placeholder icon 48x48");
            ("icon128.png", "Placeholder icon 128x128")]%string).
Proof.
  intros Hok. pose proof (main_ok_no_io_error env w Hok) as Hio.
  assert (Hnames : io_error env "icon16.png" = None
                   /\ io_error env "icon48.png" = None
                   /\ io_error env "icon128.png" = None).
  { unfold icon_names in Hio. simpl in Hio.
    destruct (io_error env "icon16.png"); [discriminate|].
    destruct (io_error env "icon48.png"); [discriminate|].
    destruct (io_error env "icon128.png"); [discriminate|].
    repeat split. }
  destruct Hnames as (H16 & H48 & H128).
  destruct (pil_available env) eqn:Hpil; cbv zeta.
  - rewrite main_with_PIL_ok by assumption. cbn [snd fs log].
    repeat split.
    + rewrite !Run.outputs_app, !Specs.outputs_calls. reflexivity.
    + unfold icon_names. repeat constructor.
      * rewrite !lookup_insert_ne by discriminate.
        rewrite lookup_insert_eq. eexists; reflexivity.
      * rewrite lookup_insert_ne by discriminate.
        rewrite lookup_insert_eq. eexists; reflexivity.
      * rewrite lookup_insert_eq. eexists; reflexivity.
    + intros _. rewrite !Run.printed_app, !Specs.printed_calls by assumption.
      reflexivity.
    + discriminate.
  - rewrite main_without_PIL_ok by assumption. cbn [snd fs log].
    repeat split.
    + rewrite Run.outputs_app. reflexivity.
    + unfold icon_names. repeat constructor.
      * rewrite !lookup_insert_ne by discriminate.
        rewrite lookup_insert_eq. eexists; reflexivity.
      * rewrite lookup_insert_ne by discriminate.
        rewrite lookup_insert_eq. eexists; reflexivity.
      * rewrite lookup_insert_eq. eexists; reflexivity.
    + discriminate.
    + intros _. rewrite Run.stubs_app. reflexivity.
Qed.

Lemma icons_in_order_desktop :
  fst (main desktop empty_world) = Ok tt /\
  let w' := snd (main desktop empty_world) in
  outputs (log w')
  = outputs (log empty_world)
    ++ ["icon16.png"; "icon48.png"; "icon128.png"]%string
  /\ Forall (fun f => is_Some (fs w' !! f)) icon_names
  /\ (pil_available desktop = true ->
      printed (log w')
      = printed (log empty_world)
        ++ ["Created icon16.png (16x16)"; "Created icon48.png (48x48)";
            "Created icon128.png (128x128)"]%string)
  /\ (pil_available desktop = false ->
      stubs (log w')
      = stubs (log empty_world)
        ++ [("icon16.png", "Placeholder icon 16x16");
            ("icon48.png", "Placeholder icon 48x48");
            ("icon128.png", "Placeholder icon 128x128")]%string).
Proof.
  assert (Hok : fst (main desktop empty_world) = Ok tt)
    by (vm_compute; reflexivity).
  split; [exact Hok|].
  apply (icons_in_order desktop empty_world). exact Hok.
Defined.

(** *** C8 *)



(** The run on the read-only installation: the first icon is saved, the
  second save fails, the third icon is never started. *)
Example read_only_48_stops_at_second_icon :
outputs (log (snd (script read_only_48 empty_world)))
= ["icon16.png"; "icon48.png"]%string
/\ printed (log (snd (script read_only_48 empty_world)))
   = ["Created icon16.png (16x16)"]%string.
Proof. vm_compute. split; reflexivity. Qed.

(** The same in the branch for a missing Pillow. *)
Example stub_branch_stops_at_second_stub :
fst (main no_pillow_read_only_48 empty_world)
= Raise (Py.PermissionError "icon48.png")
/\ outputs (log (snd (main no_pillow_read_only_48 empty_world)))
   = ["icon16.png"; "icon48.png"]%string.
Proof. vm_compute. split; reflexivity. Qed.

End Claims.

(* ===================================================================== *)
(** ** Further properties of the script *)
(* ===================================================================== *)

Module Extras.
Import PIL Script Obs View.

(** *** Readings of the history of [create_icon] *)

Lemma lines_app evs evs' : lines (evs ++ evs') = lines evs ++ lines evs'.
Proof. apply omap_app. Qed.

Lemma lines_of_rows (size : Z) (l : list Z) :
  lines ((fun i => EvLine (0, i) (size, i) (color i size)) <$> l)
  = row_line size <$> l.
Proof.
  induction l as [|i l IH]; [reflexivity|].
  cbn [fmap list_fmap lines omap list_omap]. f_equal. exact IH.
Qed.

Lemma lines_calls env size filename :
  lines (calls env size filename) = row_line size <$> Py.range size.
Proof.
  unfold calls, font_calls. cbn [lines omap list_omap].
  change (omap _ ?l) with (lines l).
  rewrite !lines_app, lines_of_rows.
  destruct (truetype_error env font_path (size / 2));
    destruct (io_error env filename); cbn; rewrite app_nil_r; reflexivity.
Qed.

(** *** Pixels *)

Lemma pixel_gradient (size x y : Z) :
  0 <= x < size -> 0 <= y < size ->
  pixel (gradient size) x y = Some (color y size).
Proof.
  intros Hx Hy. unfold pixel, gradient, Py.range. cbn [im_rows].
  replace (x <? 0) with false by (symmetry; apply Z.ltb_ge; lia).
  replace (y <? 0) with false by (symmetry; apply Z.ltb_ge; lia).
  cbn [orb]. rewrite list_lookup_fmap.
  rewrite (lookup_seqZ_lt 0 size (Z.to_nat y)) by lia.
  cbn. rewrite lookup_replicate_2 by lia.
  f_equal. f_equal. lia.
Qed.

(** *** X1 *)

(** X1.  [create_icon] with a negative size ends with the [ValueError]
    of [Image.new]: no line is drawn, no font is loaded, no file is
    written and nothing is printed. *)
Theorem create_icon_negative_size env (size : Z) (filename : string) w :
  size < 0 ->
  create_icon env size filename w
  = (Raise (Py.ValueError "Width and height must be >= 0"),
     mkWorld (fs w) (log w ++ [EvNew RGBA (size, size) (0, 0, 0, 0)])).
Proof.
  intros Hs. unfold create_icon, Image_new, PIL.new, mbind, M_bind.
  unfold bind at 1. unfold bind at 1. unfold emit at 1.
  replace (size <? 0) with true by (symmetry; apply Z.ltb_lt; lia).
  reflexivity.
Qed.

Lemma create_icon_negative_size_minus_1 :
  -1 < 0 /\
  create_icon desktop (-1) "icon.png" empty_world
  = (Raise (Py.ValueError "Width and height must be >= 0"),
     mkWorld (fs empty_world)
       (log empty_world ++ [EvNew RGBA (-1, -1) (0, 0, 0, 0)])).
Proof.
  split; [lia|].
  apply (create_icon_negative_size desktop (-1) "icon.png" empty_world).
  lia.
Defined.

(** *** X2 *)

(** X2.  The gradient loop turns the transparent canvas into the
    gradient: it ends normally, leaves a [size] by [size] RGBA image,
    and every pixel of row [y] holds the colour computed for row [y];
    the end of each segment at [x = size], one past the last column, is
    clipped. *)
Theorem gradient_loop_paints_rows (size : Z) w :
  0 <= size ->
  exists img,
    gradient_rows size (blank size) w
    = (Ok img, mkWorld (fs w)
                 (log w ++ ((fun i => EvLine (0, i) (size, i) (color i size))
                              <$> Py.range size)))
    /\ square_RGBA size img
    /\ forall x y, 0 <= x < size -> 0 <= y < size ->
                   pixel (blank size) x y = Some (0, 0, 0, 0)
                   /\ pixel img x y = Some (color y size).
Proof.
  intros Hs. exists (gradient size). split; [|split].
  - unfold gradient_rows. rewrite Run.gradient_loop.
    rewrite Raster.fold_paint_gradient by exact Hs. reflexivity.
  - apply Raster.gradient_square. exact Hs.
  - intros x y Hx Hy. split; [|apply pixel_gradient; assumption].
    unfold pixel, blank. cbn [im_rows].
    replace (x <? 0) with false by (symmetry; apply Z.ltb_ge; lia).
    replace (y <? 0) with false by (symmetry; apply Z.ltb_ge; lia).
    cbn. rewrite lookup_replicate_2 by lia. cbn.
    apply lookup_replicate_2. lia.
Qed.

Lemma gradient_loop_paints_rows_16 :
  0 <= 16 /\
  exists img,
    gradient_rows 16 (blank 16) empty_world
    = (Ok img, mkWorld (fs empty_world)
                 (log empty_world
                  ++ ((fun i => EvLine (0, i) (16, i) (color i 16))
                        <$> Py.range 16)))
    /\ square_RGBA 16 img
    /\ forall x y, 0 <= x < 16 -> 0 <= y < 16 ->
                   pixel (blank 16) x y = Some (0, 0, 0, 0)
                   /\ pixel img x y = Some (color y 16).
Proof.
  split; [lia | apply (gradient_loop_paints_rows 16 empty_world); lia].
Defined.

(** *** X3 *)

(** X3.  Whatever the fonts and whether or not the save succeeds, one
    call of [create_icon] draws exactly [size] segments: one per row, in
    the order of the rows, from [(0, i)] to [(size, i)], in the colour
    of row [i]. *)
Theorem one_line_per_row env (size : Z) (filename : string) w :
  0 <= size ->
  lines (log (snd (create_icon env size filename w)))
  = lines (log w) ++ (row_line size <$> Py.range size)
  /\ length (row_line size <$> Py.range size) = Z.to_nat size.
Proof.
  intros Hs. rewrite Run.create_icon_run by exact Hs. cbn [snd log].
  rewrite lines_app, lines_calls. split; [reflexivity|].
  unfold Py.range. rewrite length_fmap, length_seqZ. reflexivity.
Qed.

Lemma one_line_per_row_no_font_16 :
  0 <= 16 /\
  lines (log (snd (create_icon no_font 16 "icon16.png" empty_world)))
  = lines (log empty_world) ++ (row_line 16 <$> Py.range 16)
  /\ length (row_line 16 <$> Py.range 16) = Z.to_nat 16.
Proof.
  split; [lia|].
  apply (one_line_per_row no_font 16 "icon16.png" empty_world). lia.
Defined.

(** *** X4 *)

(** A channel under no ink is unchanged, and under full white ink it is
    255. *)
Lemma BLEND_0 (c ink : Z) : 0 <= c <= 255 -> BLEND 0 c ink = c.
Proof.
  intros Hc.
  assert (Hall : forallb (fun c => DIV255 (c * 255) =? c) (seqZ 0 256) = true)
    by (vm_compute; reflexivity).
  rewrite forallb_forall in Hall.
  unfold BLEND. replace (c * (255 - 0) + ink * 0) with (c * 255) by ring.
  apply Z.eqb_eq, Hall, list_elem_of_In, elem_of_seqZ. lia.
Qed.

Lemma BLEND_full (c : Z) : BLEND 255 c 255 = 255.
Proof.
  unfold BLEND. replace (c * (255 - 255) + 255 * 255) with 65025 by ring.
  reflexivity.
Qed.

Lemma color_bytes (i size : Z) :
  0 < size -> 0 <= i < size ->
  0 <= red (color i size) <= 255 /\ 0 <= green (color i size) <= 255
  /\ 0 <= blue (color i size) <= 255.
Proof.
  intros Hs Hi. rewrite Gradient.color_channels. cbn [red green blue].
  pose proof (Gradient.red_bounds i size Hs ltac:(lia)).
  pose proof (Gradient.green_bounds i size Hs ltac:(lia)).
  pose proof (Gradient.blue_bounds i size Hs ltac:(lia)).
  lia.
Qed.

Lemma pixel_text img xy cov ink (x y : Z) p :
  pixel img x y = Some p ->
  pixel (PIL.text img xy cov ink) x y
  = Some (blend_pixel (cov (x - fst xy) (y - snd xy)) p ink).
Proof.
  destruct xy as [ox oy]. unfold pixel, PIL.text. cbn [im_rows fst snd].
  destruct ((x <? 0) || (y <? 0)) eqn:Hneg; [discriminate|].
  apply orb_false_elim in Hneg as [Hx Hy].
  apply Z.ltb_ge in Hx. apply Z.ltb_ge in Hy.
  rewrite list_lookup_imap.
  destruct (im_rows img !! Z.to_nat y) as [row|]; [|discriminate].
  cbn. rewrite list_lookup_imap.
  destruct (row !! Z.to_nat x) as [q|]; [|discriminate].
  intros [= ->]. cbn. rewrite !Z2Nat.id by lia. reflexivity.
Qed.

(** X4.  In the image [create_icon] saves, a pixel the glyphs of "PA" do
    not touch (coverage 0) keeps the gradient colour of its row, and a
    pixel they cover fully (coverage 255) is white; in particular the
    picture shows the gradient wherever the text is not. *)
Theorem saved_pixels env (size : Z) (filename : string) w :
  1 <= size ->
  exists img,
    saves (log (snd (create_icon env size filename w)))
    = saves (log w) ++ [(filename, img)]
    /\ forall x y, 0 <= x < size -> 0 <= y < size ->
         let ink := glyphs env (chosen_font env size) "PA"
                      (x - fst (origin env size))
                      (y - snd (origin env size)) in
         (ink = 0 -> pixel img x y = Some (color y size))
         /\ (ink = 255 -> pixel img x y = Some white).
Proof.
  intros Hs. rewrite Run.create_icon_run by lia. cbn [snd log].
  exists (picture env size).
  rewrite Run.saves_app, Specs.saves_calls. split; [reflexivity|].
  intros x y Hx Hy. cbv zeta. unfold picture.
  rewrite (pixel_text _ _ _ _ x y (color y size))
    by (apply pixel_gradient; assumption).
  destruct (color_bytes y size ltac:(lia) Hy) as (Hr & Hg & Hb).
  pose proof (Gradient.alpha_color y size) as Ha.
  destruct (color y size) as [[[r g] b] a]. cbn [red green blue alpha] in *.
  subst a. split; intros ->; unfold blend_pixel, white.
  - rewrite !BLEND_0 by lia. reflexivity.
  - rewrite !BLEND_full. reflexivity.
Qed.

Lemma saved_pixels_desktop_16 :
  1 <= 16 /\
  exists img,
    saves (log (snd (create_icon desktop 16 "icon16.png" empty_world)))
    = saves (log empty_world) ++ [("icon16.png"%string, img)]
    /\ forall x y, 0 <= x < 16 -> 0 <= y < 16 ->
         let ink := glyphs desktop (chosen_font desktop 16) "PA"
                      (x - fst (origin desktop 16))
                      (y - snd (origin desktop 16)) in
         (ink = 0 -> pixel img x y = Some (color y 16))
         /\ (ink = 255 -> pixel img x y = Some white).
Proof.
  split; [lia|].
  apply (saved_pixels desktop 16 "icon16.png" empty_world). lia.
Defined.

(** On the sample installation the top left pixel of the 16-pixel icon
    has the start colour and a pixel inside the letters is white. *)
Example desktop_icon16_pixels :
  pixel (picture desktop 16) 0 0 = Some start_color
  /\ pixel (picture desktop 16) 0 15 = Some (117, 78, 166, 255)
  /\ pixel (picture desktop 16) 8 8 = Some white.
Proof. vm_compute. repeat split; reflexivity. Qed.

(** *** X5 *)



(** *** Whole runs *)

(** A run over a list of icons leaves every file that is not on the
    list as it was. *)
Lemma run_specs_frame env content events specs files f :
  f ∉ specs.*2 ->
  (run_specs env content events specs files).1.2 !! f = files !! f.
Proof.
  revert files. induction specs as [|[size g] rest IH]; intros files Hf.
  - reflexivity.
  - cbn [run_specs]. cbn in Hf. apply not_elem_of_cons in Hf as [Hne Hrest].
    destruct (io_error env g); [reflexivity|].
    specialize (IH (<[g := content size]> files) Hrest).
    destruct (run_specs env content events rest _) as [[r files'] evs].
    cbn [fst snd] in *. rewrite IH. apply lookup_insert_ne. congruence.
Qed.

Lemma main_files env w :
  fs (snd (main env w))
  = if pil_available env
    then (run_specs env (png env) (calls env) icon_specs (fs w)).1.2
    else (run_specs env placeholder stub_calls icon_specs (fs w)).1.2.
Proof.
  destruct (pil_available env) eqn:Hpil.
  - rewrite Run.main_with_PIL by exact Hpil.
    destruct (run_specs env (png env) (calls env) icon_specs (fs w))
      as [[r files] evs]. reflexivity.
  - rewrite Run.main_without_PIL by exact Hpil.
    destruct (run_specs env placeholder stub_calls icon_specs (fs w))
      as [[r files] evs]. reflexivity.
Qed.

Lemma main_result env w :
  fst (main env w)
  = match first_io_error env with
    | Some e => Raise e
    | None => Ok tt
    end.
Proof.
  unfold first_io_error. rewrite <- Specs.icon_specs_names.
  destruct (pil_available env) eqn:Hpil.
  - rewrite Run.main_with_PIL by exact Hpil.
    rewrite <- (Specs.run_specs_result env (png env) (calls env)
                  icon_specs (fs w)).
    destruct (run_specs env (png env) (calls env) icon_specs (fs w))
      as [[r files] evs]. reflexivity.
  - rewrite Run.main_without_PIL by exact Hpil.
    rewrite <- (Specs.run_specs_result env placeholder stub_calls
                  icon_specs (fs w)).
    destruct (run_specs env placeholder stub_calls icon_specs (fs w))
      as [[r files] evs]. reflexivity.
Qed.

(** *** X6 *)

(** X6.  No run touches a file other than icon16.png, icon48.png and
    icon128.png: whatever the installation, whichever branch [main]
    takes and whether the run ends normally or with an exception, every
    other file of the directory is as it was, after [main] and after the
    script. *)
Theorem run_touches_only_icons env w (f : string) :
  f ∉ icon_names ->
  fs (snd (main env w)) !! f = fs w !! f
  /\ fs (snd (script env w)) !! f = fs w !! f.
Proof.
  intros Hf. rewrite <- Specs.icon_specs_names in Hf.
  assert (Hmain : fs (snd (main env w)) !! f = fs w !! f).
  { rewrite main_files.
    destruct (pil_available env); apply run_specs_frame; exact Hf. }
  split; [exact Hmain|].
  destruct (pil_available env) eqn:Hpil.
  - rewrite Run.script_with_PIL by exact Hpil. exact Hmain.
  - rewrite Run.script_without_PIL by exact Hpil. reflexivity.
Qed.

Lemma run_touches_only_icons_desktop :
  ("notes.txt"%string ∉ icon_names) /\
  fs (snd (main desktop empty_world)) !! "notes.txt"%string
  = fs empty_world !! "notes.txt"%string
  /\ fs (snd (script desktop empty_world)) !! "notes.txt"%string
     = fs empty_world !! "notes.txt"%string.
Proof.
  assert (H : "notes.txt"%string ∉ icon_names).
  { unfold icon_names. rewrite !not_elem_of_cons.
    repeat split; try discriminate. apply not_elem_of_nil. }
  split; [exact H|].
  apply (run_touches_only_icons desktop empty_world "notes.txt" H).
Defined.

(** *** X7 *)



(** *** X8 *)

(** X8.  [main] and the script end normally exactly when none of the
    three writes fails (and, for the script, Pillow is there): a font
    that cannot be loaded or a text larger than the canvas never makes a
    run fail. *)
Theorem run_succeeds_iff_writes_succeed env w :
  (fst (main env w) = Ok tt <-> first_io_error env = None)
  /\ (fst (script env w) = Ok tt
      <-> pil_available env = true /\ first_io_error env = None).
Proof.
  assert (Hmain : fst (main env w) = Ok tt <-> first_io_error env = None).
  { rewrite main_result. destruct (first_io_error env); split;
      intros; (reflexivity || discriminate). }
  split; [exact Hmain|].
  destruct (pil_available env) eqn:Hpil.
  - rewrite Run.script_with_PIL by exact Hpil. rewrite Hmain. tauto.
  - rewrite Run.script_without_PIL by exact Hpil. cbn [fst].
    split; [discriminate | intros [? _]; discriminate].
Qed.

(** *** X9 *)

Lemma drawing_app evs evs' :
  drawing (evs ++ evs') = drawing evs ++ drawing evs'.
Proof. apply List.filter_app. Qed.

(** X9.  The branch of [main] for a missing Pillow: when the import
    inside [main] fails and no write fails, [main] prints its notice,
    writes the three stubs in the order 16, 48, 128, each holding
    "Placeholder icon NxN" for its size, calls no drawing entry point of
    Pillow and returns normally. *)
Theorem main_fallback_writes_stubs env w :
  pil_available env = false ->
  first_io_error env = None ->
  let w' := snd (main env w) in
  fst (main env w) = Ok tt
  /\ stubs (log w')
     = stubs (log w)
       ++ [("icon16.png", "Placeholder icon 16x16");
           ("icon48.png", "Placeholder icon 48x48");
           ("icon128.png", "Placeholder icon 128x128")]%string
  /\ (fs w' !! "icon16.png"%string = Some "Placeholder icon 16x16"%string
      /\ fs w' !! "icon48.png"%string = Some "Placeholder icon 48x48"%string
      /\ fs w' !! "icon128.png"%string
         = Some "Placeholder icon 128x128"%string)
  /\ printed (log w')
     = printed (log w)
       ++ ["PIL/Pillow not available. Creating simple text files as placeholders."%string]
  /\ drawing (log w') = drawing (log w).
Proof.
  intros Hpil Hio. cbv zeta.
  rewrite Claims.main_without_PIL_ok by assumption. cbn [fst snd fs log].
  split; [reflexivity|]. split; [|split; [|split]].
  - rewrite Run.stubs_app. reflexivity.
  - repeat split.
    + rewrite !lookup_insert_ne by discriminate. apply lookup_insert_eq.
    + rewrite lookup_insert_ne by discriminate. apply lookup_insert_eq.
    + apply lookup_insert_eq.
  - rewrite Run.printed_app. reflexivity.
  - rewrite drawing_app. cbn. apply app_nil_r.
Qed.

Lemma main_fallback_writes_stubs_no_pillow :
  (pil_available no_pillow = false /\ first_io_error no_pillow = None) /\
  let w' := snd (main no_pillow empty_world) in
  fst (main no_pillow empty_world) = Ok tt
  /\ stubs (log w')
     = stubs (log empty_world)
       ++ [("icon16.png", "Placeholder icon 16x16");
           ("icon48.png", "Placeholder icon 48x48");
           ("icon128.png", "Placeholder icon 128x128")]%string
  /\ (fs w' !! "icon16.png"%string = Some "Placeholder icon 16x16"%string
      /\ fs w' !! "icon48.png"%string = Some "Placeholder icon 48x48"%string
      /\ fs w' !! "icon128.png"%string
         = Some "Placeholder icon 128x128"%string)
  /\ printed (log w')
     = printed (log empty_world)
       ++ ["PIL/Pillow not available. Creating simple text files as placeholders."%string]
  /\ drawing (log w') = drawing (log empty_world).
Proof.
  split; [split; reflexivity|].
  apply (main_fallback_writes_stubs no_pillow empty_world); reflexivity.
Defined.

(** *** X10 *)

(** X10.  No run of the script writes a placeholder stub, on any
    installation.  Without Pillow the script ends at the import of
    line 7 with [ModuleNotFoundError], the directory and the console as
    they were; with Pillow it is [main], whose import succeeds. *)
Theorem script_never_writes_stubs env w :
  stubs (log (snd (script env w))) = stubs (log w)
  /\ (if pil_available env
      then script env w = main env w
      else script env w = (Raise (Py.ModuleNotFoundError "PIL"), w)).
Proof.
  split; [apply Claims.script_writes_no_stub|].
  destruct (pil_available env) eqn:Hpil.
  - apply Run.script_with_PIL. exact Hpil.
  - apply Run.script_without_PIL. exact Hpil.
Qed.

(** *** X11 *)




(** *** X12 *)

Lemma font_loads_app evs evs' :
  font_loads (evs ++ evs') = font_loads evs ++ font_loads evs'.
Proof. apply List.filter_app. Qed.

Lemma text_fonts_app evs evs' :
  text_fonts (evs ++ evs') = text_fonts evs ++ text_fonts evs'.
Proof. apply omap_app. Qed.

Lemma font_loads_lines (size : Z) (l : list Z) :
  font_loads ((fun i => EvLine (0, i) (size, i) (color i size)) <$> l) = [].
Proof. induction l as [|i l IH]; [reflexivity | exact IH]. Qed.

Lemma text_fonts_lines (size : Z) (l : list Z) :
  text_fonts ((fun i => EvLine (0, i) (size, i) (color i size)) <$> l) = [].
Proof. induction l as [|i l IH]; [reflexivity | exact IH]. Qed.

(** X12.  One call of [create_icon] asks for the DejaVu face exactly
    once, at [size // 2] points, and calls [ImageFont.load_default()]
    only when that fails, then once.  The text is measured and then
    drawn with one and the same font: the loaded face when the load
    succeeded, the built-in one otherwise. *)
Theorem one_font_per_icon env (size : Z) (filename : string) w :
  0 <= size ->
  let w' := snd (create_icon env size filename w) in
  match truetype_error env font_path (Py.floordiv size 2) with
  | None =>
      font_loads (log w')
      = font_loads (log w) ++ [EvTruetype font_path (Py.floordiv size 2)]
      /\ text_fonts (log w')
         = text_fonts (log w)
           ++ [FreeTypeFont font_path (Py.floordiv size 2);
               FreeTypeFont font_path (Py.floordiv size 2)]
  | Some _ =>
      font_loads (log w')
      = font_loads (log w)
        ++ [EvTruetype font_path (Py.floordiv size 2); EvLoadDefault]
      /\ text_fonts (log w')
         = text_fonts (log w) ++ [DefaultFont; DefaultFont]
  end.
Proof.
  intros Hs. cbv zeta. rewrite Run.create_icon_run by exact Hs.
  cbn [snd log]. rewrite font_loads_app, text_fonts_app.
  unfold calls, font_calls, chosen_font, Py.floordiv.
  cbn [font_loads text_fonts List.filter omap list_omap].
  change (List.filter _ ?l) with (font_loads l).
  change (omap _ ?l) with (text_fonts l).
  rewrite !font_loads_app, !text_fonts_app, font_loads_lines,
    text_fonts_lines.
  destruct (truetype_error env font_path (size / 2));
    destruct (io_error env filename); split; reflexivity.
Qed.

Lemma one_font_per_icon_desktop_48 :
  0 <= 48 /\
  let w' := snd (create_icon desktop 48 "icon48.png" empty_world) in
  match truetype_error desktop font_path (Py.floordiv 48 2) with
  | None =>
      font_loads (log w')
      = font_loads (log empty_world)
        ++ [EvTruetype font_path (Py.floordiv 48 2)]
      /\ text_fonts (log w')
         = text_fonts (log empty_world)
           ++ [FreeTypeFont font_path (Py.floordiv 48 2);
               FreeTypeFont font_path (Py.floordiv 48 2)]
  | Some _ =>
      font_loads (log w')
      = font_loads (log empty_world)
        ++ [EvTruetype font_path (Py.floordiv 48 2); EvLoadDefault]
      /\ text_fonts (log w')
         = text_fonts (log empty_world) ++ [DefaultFont; DefaultFont]
  end.
Proof.
  split; [lia|].
  apply (one_font_per_icon desktop 48 "icon48.png" empty_world). lia.
Defined.

End Extras.
